(** * statusBot: the monitoring and alerting core

    A shallow embedding of [src/tests.js] (probe configuration, HTTP and TCP
    probes) and [src/system.js] (CPU/RAM/disk sampling, severity
    classification, edge-triggered system alerts), with the SQLite tables of
    [src/database.js] and the notifier of [telegram.js] as an explicit world
    that every operation threads through.

    Conventions.
    - A JavaScript string is a [string]: its code units, restricted to units
      below 256.
    - A JavaScript number is a binary64 float.  The CPU sampling, whose
      averages and quotient are rounded, is computed in [Binary64]: the
      operations of IEEE 754 as the Standard Library specifies them.
      Elsewhere a number is a [number]: an exact rational or one of NaN,
      +Infinity, -Infinity; this is exact for [parseInt] below 2^53 and
      for the memory figures, except that a memory percentage within
      rounding error of a half can round the other way.
    - A table is the list of its rows, most recent first; [ORDER BY timestamp
      DESC LIMIT 1] reads the head of the matching rows (rows of one target
      are written by successive cycles, so their timestamps are ordered like
      their insertions).
    - The prepared statements and [sendToAllUsers] do not throw: the database
      accepts the rows and [TELEGRAM_CHAT_IDS] is set, as the README requires.
      Delivery failures are caught inside [sendMessage].  What does throw
      is [socket.connect] on a port it refuses: the test cycle then rejects.
    - What the network and the host answer (the result of [fetch], of the
      socket, of [os.cpus()], [os.totalmem()], [os.freemem()] and of [df]) and
      the elapsed time are inputs of the modelled functions. *)

From Stdlib Require Import ZArith QArith Qround Qminmax Lqa List String Ascii Bool Lia.
From Stdlib Require Import DecimalString.
From Stdlib Require DecimalPos DecimalZ.
From Stdlib Require Import SpecFloat.
Import ListNotations.

Open Scope string_scope.
Open Scope Z_scope.

(** ** JavaScript strings *)

Module JsString.

(** WhiteSpace and LineTerminator code units below 256:
    TAB, LF, VT, FF, CR, SP, NBSP. *)
Definition is_ws (c : ascii) : bool :=
  let n := nat_of_ascii c in
  ((9 <=? n) && (n <=? 13) || (n =? 32) || (n =? 160))%nat.

Fixpoint trimStart (s : string) : string :=
  match s with
  | "" => ""
  | String c s' => if is_ws c then trimStart s' else s
  end.

Fixpoint trimEnd (s : string) : string :=
  match s with
  | "" => ""
  | String c s' =>
      match trimEnd s' with
      | "" => if is_ws c then "" else String c ""
      | t => String c t
      end
  end.

(** [String.prototype.trim] *)
Definition trim (s : string) : string := trimEnd (trimStart s).

(** [String.prototype.split] with a one-unit separator: the pieces between
    the separators, in order; never empty ([[""]] for the empty string). *)
Fixpoint split (sep : ascii) (s : string) : list string :=
  match s with
  | "" => [""]
  | String c s' =>
      if Ascii.eqb c sep then "" :: split sep s'
      else match split sep s' with
           | [] => [String c ""]
           | p :: ps => String c p :: ps
           end
  end.

(** [Array.prototype.join] *)
Fixpoint join (sep : string) (l : list string) : string :=
  match l with
  | [] => ""
  | [x] => x
  | x :: rest => x ++ sep ++ join sep rest
  end.

(** Truthiness of a string: non-empty. *)
Definition truthy (s : string) : bool :=
  match s with "" => false | _ => true end.

(** [a || b] on strings. *)
Definition or_else (a b : string) : string := if truthy a then a else b.

(** [Array.prototype.pop] and index 0 on the result of [split], which is
    never empty. *)
Definition pop (l : list string) : string := last l "".
Definition first (l : list string) : string := hd "" l.

(** Does the unit occur in the string? *)
Fixpoint mem (c : ascii) (s : string) : bool :=
  match s with
  | "" => false
  | String a s' => Ascii.eqb a c || mem c s'
  end.

(** [s.split(/\s+/)]: the pieces between the runs of whitespace; [in_ws]
    says that the previous unit was whitespace. *)
Fixpoint split_ws_from (in_ws : bool) (s : string) : list string :=
  match s with
  | "" => [""]
  | String c s' =>
      if is_ws c then
        if in_ws then split_ws_from true s' else "" :: split_ws_from true s'
      else match split_ws_from false s' with
           | [] => [String c ""]
           | p :: ps => String c p :: ps
           end
  end.

Definition split_ws (s : string) : list string := split_ws_from false s.

(** [s.replace(c, '')] for a one-unit pattern: the first occurrence goes. *)
Fixpoint remove_first (c : ascii) (s : string) : string :=
  match s with
  | "" => ""
  | String a s' => if Ascii.eqb a c then s' else String a (remove_first c s')
  end.

(** [String.prototype.includes] *)
Fixpoint includes (needle hay : string) : bool :=
  prefix needle hay
  || match hay with
     | "" => false
     | String _ h => includes needle h
     end.

End JsString.

(** ** The words of the specification for derived names *)

Module NameSpec.
Import JsString.

(** The part of [s] after its last [c]; all of [s] when [c] does not occur. *)
Fixpoint after_last (c : ascii) (s : string) : string :=
  match s with
  | "" => ""
  | String a s' =>
      if mem c s' then after_last c s'
      else if Ascii.eqb a c then s' else s
  end.

(** The part of [s] before its first [c]; all of [s] when [c] does not
    occur. *)
Fixpoint before_first (c : ascii) (s : string) : string :=
  match s with
  | "" => ""
  | String a s' => if Ascii.eqb a c then "" else String a (before_first c s')
  end.

(** "the substring after the last '/', or, when that substring is empty,
    the substring before the first ':', or otherwise the whole target" *)
Definition derived_name (t : string) : string :=
  match after_last "/" t with
  | "" => match before_first ":" t with
          | "" => t
          | b => b
          end
  | a => a
  end.

(** The items of a comma-separated string that survive trimming. *)
Definition kept_items (s : string) : list string :=
  filter (fun e => negb (String.eqb e "")) (map trim (split "," s)).

End NameSpec.

(** ** JavaScript numbers *)

Module JsNumber.
Import JsString.

(** A number: a finite value (exact), NaN, +Infinity or -Infinity.  Zero
    is unsigned: the only divisors this code can make zero are differences
    [a - a] and literal counts, which are +0. *)
Inductive number := Fin (q : Q) | NaN | PInf | NInf.

Definition of_Z (z : Z) : number := Fin (inject_Z z).

Definition sub (x y : number) : number :=
  match x, y with
  | NaN, _ | _, NaN => NaN
  | Fin a, Fin b => Fin (a - b)
  | PInf, PInf | NInf, NInf => NaN
  | PInf, _ | _, NInf => PInf
  | NInf, _ | _, PInf => NInf
  end.

(** -1, 0 or 1 *)
Definition sign (q : Q) : Z := Z.sgn (Qnum q).

Definition inf_of_sign (s : Z) : number :=
  if s =? 0 then NaN else if 0 <? s then PInf else NInf.

Definition mul (x y : number) : number :=
  match x, y with
  | NaN, _ | _, NaN => NaN
  | Fin a, Fin b => Fin (a * b)
  | Fin a, PInf | PInf, Fin a => inf_of_sign (sign a)
  | Fin a, NInf | NInf, Fin a => inf_of_sign (- sign a)
  | PInf, PInf | NInf, NInf => PInf
  | PInf, NInf | NInf, PInf => NInf
  end.

Definition div (x y : number) : number :=
  match x, y with
  | NaN, _ | _, NaN => NaN
  | Fin a, Fin b =>
      if sign b =? 0 then inf_of_sign (sign a) else Fin (a / b)
  | Fin _, _ => Fin 0
  | PInf, Fin b => if sign b <? 0 then NInf else PInf
  | NInf, Fin b => if sign b <? 0 then PInf else NInf
  | _, _ => NaN
  end.

(** [x >= y] *)
Definition ge (x y : number) : bool :=
  match x, y with
  | NaN, _ | _, NaN => false
  | Fin a, Fin b => Qle_bool b a
  | PInf, _ | _, NInf => true
  | _, _ => false
  end.

(** Truncation toward zero. *)
Definition trunc (q : Q) : Z :=
  if Qle_bool 0 q then Qfloor q else Qceiling q.

(** The signed 32-bit integer congruent to [z] modulo 2^32. *)
Definition wrap32 (z : Z) : Z :=
  let m := z mod 2 ^ 32 in
  if m <? 2 ^ 31 then m else m - 2 ^ 32.

(** [~~x], that is ToInt32: NaN and the infinities give 0. *)
Definition to_int32 (x : number) : Z :=
  match x with
  | Fin q => wrap32 (trunc q)
  | _ => 0
  end.

(** [Math.round]: the nearest integer, halves upwards. *)
Definition round (x : number) : number :=
  match x with
  | Fin q => of_Z (Qfloor (q + (1 # 2)))
  | _ => x
  end.

Definition show_Z (z : Z) : string := NilEmpty.string_of_int (Z.to_int z).

(** [String(x)] for the values this code prints, all of them integral. *)
Definition show (x : number) : string :=
  match x with
  | Fin q => show_Z (Qfloor q)
  | NaN => "NaN"
  | PInf => "Infinity"
  | NInf => "-Infinity"
  end.

(** *** [parseInt] without a radix *)

Definition digit_of (c : ascii) : option Z :=
  let n := Z.of_nat (nat_of_ascii c) in
  if (48 <=? n) && (n <=? 57) then Some (n - 48) else None.

Definition hex_digit_of (c : ascii) : option Z :=
  let n := Z.of_nat (nat_of_ascii c) in
  if (48 <=? n) && (n <=? 57) then Some (n - 48)
  else if (97 <=? n) && (n <=? 102) then Some (n - 87)
  else if (65 <=? n) && (n <=? 70) then Some (n - 55)
  else None.

(** The value of the longest prefix of digits, [None] when it is empty. *)
Fixpoint digits (digit : ascii -> option Z) (radix : Z)
         (acc : option Z) (s : string) : option Z :=
  match s with
  | "" => acc
  | String c s' =>
      match digit c with
      | Some d =>
          digits digit radix
                 (Some (radix * match acc with Some a => a | None => 0 end + d)) s'
      | None => acc
      end
  end.

Definition parse_magnitude (s : string) : option Z :=
  match s with
  | String "0" (String "x" r) | String "0" (String "X" r) =>
      digits hex_digit_of 16 None r
  | _ => digits digit_of 10 None s
  end.

Definition parseInt (s : string) : number :=
  let s := trimStart s in
  let '(neg, body) :=
    match s with
    | String "-" r => (true, r)
    | String "+" r => (false, r)
    | _ => (false, s)
    end in
  match parse_magnitude body with
  | Some m => of_Z (if neg then - m else m)
  | None => NaN
  end.

(** [parseInt(v) || dflt], for a setting of the environment that may be
    unset. *)
Definition parseInt_or (v : option string) (dflt : Z) : Z :=
  match v with
  | None => dflt
  | Some s =>
      match parseInt s with
      | Fin q => if Qfloor q =? 0 then dflt else Qfloor q
      | _ => dflt
      end
  end.

End JsNumber.

(** ** Binary64 arithmetic *)

Module Binary64.

Definition prec : Z := 53.
Definition emax : Z := 1024.

(** A double: a signed zero, an infinity, NaN, or a sign, a mantissa and
    an exponent. *)
Definition float : Set := spec_float.

Definition zero : float := S754_zero false.

(** The double nearest to an integer. *)
Definition of_Z (z : Z) : float := binary_normalize prec emax z 0 false.

(** [+], [-], [*], [/]: the exact result rounded to nearest, ties to even. *)
Definition add (x y : float) : float := SFadd prec emax x y.
Definition sub (x y : float) : float := SFsub prec emax x y.
Definition mul (x y : float) : float := SFmul prec emax x y.
Definition div (x y : float) : float := SFdiv prec emax x y.

(** The number a double stands for. *)
Definition value (x : float) : JsNumber.number :=
  match x with
  | S754_zero _ => JsNumber.Fin 0
  | S754_infinity false => JsNumber.PInf
  | S754_infinity true => JsNumber.NInf
  | S754_nan => JsNumber.NaN
  | S754_finite s m e =>
      JsNumber.Fin (inject_Z (if s then Z.neg m else Z.pos m) * 2 ^ e)%Q
  end.

(** [~~x] *)
Definition to_int32 (x : float) : Z := JsNumber.to_int32 (value x).

Definition is_zero (x : float) : bool :=
  match x with
  | S754_zero _ => true
  | _ => false
  end.

End Binary64.

(** ** The store, the notifier and the sampler's baseline *)

Inductive kind := Http | Tcp.
Inductive outcome := Success | Failed.
Inductive severity := Healthy | Warning | Critical.

Definition kind_eqb (a b : kind) : bool :=
  match a, b with Http, Http | Tcp, Tcp => true | _, _ => false end.

(** A row of table [tests] (its [id] and [timestamp] are the position in
    the table). *)
Module TestRow.
Record t := {
  test_type : kind;
  test_name : string;
  target : string;
  status : outcome;
  response_time : Z;
  error_message : option string;
  is_recovery : bool
}.
End TestRow.

(** What [getRamUsage] and [getDiskUsage] return. *)
Record ram_info := {
  totalMemMB : JsNumber.number;
  usedMemMB : JsNumber.number;
  ram_usagePercent : JsNumber.number;
  freeMem : JsNumber.number
}.

Record disk_info := {
  totalGB : JsNumber.number;
  usedGB : JsNumber.number;
  availGB : JsNumber.number;
  disk_usagePercent : JsNumber.number
}.

(** A row of table [system_metrics]; [None] is SQL NULL. *)
Module MetricRow.
Record t := {
  cpu_usage : Z;
  ram_used_mb : JsNumber.number;
  ram_total_mb : JsNumber.number;
  ram_usage_percent : JsNumber.number;
  disk_used_gb : option JsNumber.number;
  disk_total_gb : option JsNumber.number;
  disk_usage_percent : option JsNumber.number;
  status : severity;
  warning_message : option string
}.
End MetricRow.

(** The texts handed to [sendToAllUsers], by template, with the values
    they interpolate. *)
Inductive message :=
| HttpRecovery (name : string) (responseTime : Z)
    (* RECOVERY: <name> is back online (Response time: <ms>ms) *)
| HttpTestFailed (name : string) (errorMessage : option string) (responseTime : Z)
    (* HTTP TEST FAILED: <name> - <error> (Response time: <ms>ms) *)
| TcpRecovery (name : string) (responseTime : Z)
    (* TCP RECOVERY: <name> is reachable (<ms>ms) *)
| TcpTestFailed (name : string) (errorMessage : string) (responseTime : Z)
    (* TCP TEST FAILED: <name> - <error> (<ms>ms) *)
| SystemAlert (status : severity) (cpuUsage : Z) (ram : ram_info)
    (disk : option disk_info) (issues : list string)
    (* SYSTEM ALERT - <STATUS> ... Issues: ... *)
| SystemRecovery (cpuUsage : Z) (ram : ram_info) (disk : option disk_info).
    (* SYSTEM RECOVERY ... *)

(** The effects on the store and the notifier, in the order they happen. *)
Inductive event :=
| GetLastTestResult (target : string) (test_type : kind)
| InsertTestResult (row : TestRow.t)
| GetLastSystemStatus
| InsertSystemMetric (row : MetricRow.t)
| SendToAllUsers (m : message).

Record world := {
  tests : list TestRow.t;               (* table tests, most recent first *)
  system_metrics : list MetricRow.t;    (* table system_metrics, most recent first *)
  previousCpuInfo : option (Binary64.float * Binary64.float);
                                        (* { idle, total } or null *)
  log : list event                      (* oldest first *)
}.

(** Computations over the world. *)
Module Eff.

Definition M (A : Type) : Type := world -> A * world.

Definition ret {A} (a : A) : M A := fun w => (a, w).

Definition bind {A B} (m : M A) (k : A -> M B) : M B :=
  fun w => let '(a, w') := m w in k a w'.

Definition emit (e : event) (w : world) : world :=
  {| tests := tests w; system_metrics := system_metrics w;
     previousCpuInfo := previousCpuInfo w; log := (log w ++ [e])%list |}.

(** [SELECT status FROM tests WHERE target = ? AND test_type = ?
     ORDER BY timestamp DESC LIMIT 1] *)
Definition last_test_status (rows : list TestRow.t) (target : string)
           (test_type : kind) : option outcome :=
  option_map TestRow.status
    (find (fun r => String.eqb (TestRow.target r) target
                    && kind_eqb (TestRow.test_type r) test_type) rows).

Definition getLastTestResult (target : string) (test_type : kind)
  : M (option outcome) :=
  fun w => (last_test_status (tests w) target test_type,
            emit (GetLastTestResult target test_type) w).

Definition insertTestResult (row : TestRow.t) : M unit :=
  fun w =>
    let w := emit (InsertTestResult row) w in
    (tt, {| tests := row :: tests w; system_metrics := system_metrics w;
            previousCpuInfo := previousCpuInfo w; log := log w |}).

(** [SELECT status FROM system_metrics ORDER BY timestamp DESC LIMIT 1] *)
Definition last_system_status (rows : list MetricRow.t) : option severity :=
  option_map MetricRow.status (hd_error rows).

Definition getLastSystemStatus : M (option severity) :=
  fun w => (last_system_status (system_metrics w), emit GetLastSystemStatus w).

Definition insertSystemMetric (row : MetricRow.t) : M unit :=
  fun w =>
    let w := emit (InsertSystemMetric row) w in
    (tt, {| tests := tests w; system_metrics := row :: system_metrics w;
            previousCpuInfo := previousCpuInfo w; log := log w |}).

Definition sendToAllUsers (m : message) : M unit :=
  fun w => (tt, emit (SendToAllUsers m) w).

Definition get_previousCpuInfo : M (option (Binary64.float * Binary64.float)) :=
  fun w => (previousCpuInfo w, w).

Definition set_previousCpuInfo (idle total : Binary64.float) : M unit :=
  fun w => (tt, {| tests := tests w; system_metrics := system_metrics w;
                   previousCpuInfo := Some (idle, total); log := log w |}).

(** [if (c) { m }] *)
Definition when (c : bool) (m : M unit) : M unit := if c then m else ret tt.

End Eff.

Declare Scope eff_scope.
Delimit Scope eff_scope with eff.
Notation "x <- m ;; k" := (Eff.bind m (fun x => k))
  (at level 61, m at next level, right associativity) : eff_scope.
Notation "m ;; k" := (Eff.bind m (fun _ => k))
  (at level 61, right associativity) : eff_scope.

(** The messages sent, in order. *)
Fixpoint sent (l : list event) : list message :=
  match l with
  | [] => []
  | SendToAllUsers m :: l' => m :: sent l'
  | _ :: l' => sent l'
  end.

Definition empty_world : world :=
  {| tests := []; system_metrics := []; previousCpuInfo := None; log := [] |}.

(** ** [src/tests.js] *)

(** What the network did to a probe: inputs of the model. *)
Record js_error := { err_name : string; err_message : string; err_code : string }.

Inductive fetch_result :=
| Responded (status : Z)          (* [fetch] resolved with this status code *)
| Rejected (error : js_error).    (* [fetch] threw, the abort included *)

Inductive connect_result :=
| Connected                       (* the connect callback ran first *)
| TimedOut                        (* the timer ran first *)
| SocketError (error : js_error). (* the 'error' handler ran first *)

Module Tests.
Import JsString JsNumber Eff.
Local Open Scope eff_scope.

Record test_config := { name : string; target : string }.

(** The body of the [for (const config of configs)] loop: the entry pushed
    for one configuration item. *)
Definition parse_entry (config : string) : test_config :=
  let parts := map trim (split "|" config) in
  match parts with
  | [n; t] => {| name := n; target := t |}
  | _ =>
      let t := first parts in
      let n := or_else (pop (split "/" t)) (or_else (first (split ":" t)) t) in
      {| name := n; target := t |}
  end.

Definition parseTestConfig (configString : string) : list test_config :=
  let configs := filter truthy (map trim (split "," configString)) in
  fold_left (fun tests config => (tests ++ [parse_entry config])%list) configs [].

(** The object a probe resolves to. *)
Record probe_result := {
  status : outcome;
  responseTime : Z;
  errorMessage : option string;
  result_name : string
}.

(** [lastResult && lastResult.status === 'failed'], as a truth value. *)
Definition last_failed (lastResult : option outcome) : bool :=
  match lastResult with
  | Some Failed => true
  | _ => false
  end.

Definition is_failed (s : outcome) : bool :=
  match s with Failed => true | Success => false end.

(** The text of a rejected [fetch], as the [catch] block words it. *)
Definition fetch_error_message (error : js_error) : string :=
  if String.eqb (err_name error) "AbortError" then "Request timeout"
  else if String.eqb (err_name error) "TypeError"
          && includes "fetch" (err_message error)
       then "Network error - cannot reach server"
       else or_else (err_message error) "Unknown error".

(** [runHttpTest(testConfig)], given what [fetch] did and the elapsed
    milliseconds [Math.round(performance.now() - startTime)]. *)
Definition runHttpTest (testConfig : test_config) (fetched : fetch_result)
           (responseTime : Z) : M probe_result :=
  let name := name testConfig in
  let url := target testConfig in
  let testType := Http in
  match fetched with
  | Responded code =>
      let status := if code <? 400 then Success else Failed in
      let errorMessage :=
        if is_failed status then Some ("HTTP " ++ show_Z code) else None in
      lastResult <- getLastTestResult url testType ;;
      let isRecovery := last_failed lastResult in
      insertTestResult
        {| TestRow.test_type := testType; TestRow.test_name := name;
           TestRow.target := url; TestRow.status := status;
           TestRow.response_time := responseTime;
           TestRow.error_message := errorMessage;
           TestRow.is_recovery := isRecovery |} ;;
      when (is_failed status || isRecovery)
           (sendToAllUsers
              (if isRecovery then HttpRecovery name responseTime
               else HttpTestFailed name errorMessage responseTime)) ;;
      ret {| status := status; responseTime := responseTime;
             errorMessage := errorMessage; result_name := name |}
  | Rejected error =>
      let errorMessage := fetch_error_message error in
      lastResult <- getLastTestResult url testType ;;
      let isRecovery := false in
      insertTestResult
        {| TestRow.test_type := testType; TestRow.test_name := name;
           TestRow.target := url; TestRow.status := Failed;
           TestRow.response_time := responseTime;
           TestRow.error_message := Some errorMessage;
           TestRow.is_recovery := false |} ;;
      sendToAllUsers (HttpTestFailed name (Some errorMessage) responseTime) ;;
      ret {| status := Failed; responseTime := responseTime;
             errorMessage := Some errorMessage; result_name := name |}
  end.

(** [const [host, port] = target.split(':')] and [parseInt(port)]. *)
Definition tcp_endpoint (target : string) : string * number :=
  let parts := split ":" target in
  (first parts, match parts with _ :: port :: _ => parseInt port | _ => NaN end).

(** [socket.connect(parseInt(port), host, ...)] throws ERR_SOCKET_BAD_PORT
    unless the port is an integer from 0 to 65535.  The throw happens in
    the promise's executor, so the promise of [runTcpTest] rejects; the
    timer set before it is left running. *)
Definition port_accepted (port : number) : bool :=
  match port with
  | Fin q =>
      Qeq_bool q (inject_Z (Qfloor q)) && (0 <=? Qfloor q) && (Qfloor q <=? 65535)
  | _ => false
  end.

Definition connect_throws (target : string) : bool :=
  negb (port_accepted (snd (tcp_endpoint target))).

(** [runTcpTest(testConfig)], given which of the three handlers ran and
    the elapsed milliseconds.  For a target whose port [socket.connect]
    refuses only the timer's handler can run, after the promise has
    rejected: [Cycle.run_tcp_tests] has that case. *)
Definition runTcpTest (testConfig : test_config) (connected : connect_result)
           (responseTime : Z) : M probe_result :=
  let name := name testConfig in
  let target := target testConfig in
  let testType := Tcp in
  match connected with
  | TimedOut =>
      lastResult <- getLastTestResult target testType ;;
      let isRecovery := false in
      insertTestResult
        {| TestRow.test_type := testType; TestRow.test_name := name;
           TestRow.target := target; TestRow.status := Failed;
           TestRow.response_time := responseTime;
           TestRow.error_message := Some "Connection timeout";
           TestRow.is_recovery := false |} ;;
      sendToAllUsers (TcpTestFailed name "Connection timeout" responseTime) ;;
      ret {| status := Failed; responseTime := responseTime;
             errorMessage := Some "Connection timeout"; result_name := name |}
  | Connected =>
      lastResult <- getLastTestResult target testType ;;
      let isRecovery := last_failed lastResult in
      insertTestResult
        {| TestRow.test_type := testType; TestRow.test_name := name;
           TestRow.target := target; TestRow.status := Success;
           TestRow.response_time := responseTime;
           TestRow.error_message := None;
           TestRow.is_recovery := isRecovery |} ;;
      when isRecovery (sendToAllUsers (TcpRecovery name responseTime)) ;;
      ret {| status := Success; responseTime := responseTime;
             errorMessage := None; result_name := name |}
  | SocketError error =>
      let text := or_else (err_message error) (err_code error) in
      lastResult <- getLastTestResult target testType ;;
      let isRecovery := false in
      insertTestResult
        {| TestRow.test_type := testType; TestRow.test_name := name;
           TestRow.target := target; TestRow.status := Failed;
           TestRow.response_time := responseTime;
           TestRow.error_message := Some text;
           TestRow.is_recovery := false |} ;;
      sendToAllUsers (TcpTestFailed name text responseTime) ;;
      ret {| status := Failed; responseTime := responseTime;
             errorMessage := Some text; result_name := name |}
  end.

End Tests.

(** ** [src/system.js] *)

(** What the host reported to a health check: inputs of the model.  The
    times of a core are whole milliseconds; [Binary64.of_Z] gives the
    doubles that the code adds up. *)
Record cpu_times := { user : Z; nice : Z; sys : Z; idle : Z; irq : Z }.

Inductive exec_result :=
| ExecFailed (message : string)   (* [execPromise] rejected *)
| ExecOk (stdout : string).

Record host_reading := {
  os_cpus : list cpu_times;
  os_totalmem : Z;
  os_freemem : Z;
  df_root : exec_result
}.

Record thresholds := {
  RAM_WARNING_THRESHOLD : Z;
  RAM_CRITICAL_THRESHOLD : Z;
  CPU_WARNING_THRESHOLD : Z;
  CPU_CRITICAL_THRESHOLD : Z;
  DISK_WARNING_THRESHOLD : Z;
  DISK_CRITICAL_THRESHOLD : Z
}.

Inductive resource := Ram | Cpu | Disk.

(** An element of the [warnings] array, by template. *)
Inductive warning :=
| RamCritical (ram : ram_info)
| RamHigh (ram : ram_info)
| CpuCritical (cpuUsage : Z)
| CpuHigh (cpuUsage : Z)
| DiskCritical (disk : disk_info)
| DiskLow (disk : disk_info).

Definition resource_of (w : warning) : resource :=
  match w with
  | RamCritical _ | RamHigh _ => Ram
  | CpuCritical _ | CpuHigh _ => Cpu
  | DiskCritical _ | DiskLow _ => Disk
  end.

Inductive health_result :=
| Initializing
| Checked (status : severity) (cpuUsage : Z) (ramInfo : ram_info)
          (diskInfo : option disk_info) (warnings : option (list warning)).

Module System.
Import JsString JsNumber Eff.
Local Open Scope eff_scope.

(** The thresholds as the module reads them from the environment, each
    [parseInt(process.env.X) || default]. *)
Definition thresholds_of_env (env : string -> option string) : thresholds :=
  {| RAM_WARNING_THRESHOLD := parseInt_or (env "RAM_WARNING_THRESHOLD") 85;
     RAM_CRITICAL_THRESHOLD := parseInt_or (env "RAM_CRITICAL_THRESHOLD") 95;
     CPU_WARNING_THRESHOLD := parseInt_or (env "CPU_WARNING_THRESHOLD") 80;
     CPU_CRITICAL_THRESHOLD := parseInt_or (env "CPU_CRITICAL_THRESHOLD") 90;
     DISK_WARNING_THRESHOLD := parseInt_or (env "DISK_WARNING_THRESHOLD") 85;
     DISK_CRITICAL_THRESHOLD := parseInt_or (env "DISK_CRITICAL_THRESHOLD") 95 |}.

(** The two sums of the [cpus.forEach] loop, [(totalIdle, totalTick)]:
    for each core the five times are added to [totalTick] in the order of
    [cpu.times] (user, nice, sys, idle, irq), then its idle time to
    [totalIdle]. *)
Definition sum_ticks (cpus : list cpu_times) : Binary64.float * Binary64.float :=
  fold_left
    (fun '(totalIdle, totalTick) cpu =>
       let totalTick := Binary64.add totalTick (Binary64.of_Z (user cpu)) in
       let totalTick := Binary64.add totalTick (Binary64.of_Z (nice cpu)) in
       let totalTick := Binary64.add totalTick (Binary64.of_Z (sys cpu)) in
       let totalTick := Binary64.add totalTick (Binary64.of_Z (idle cpu)) in
       let totalTick := Binary64.add totalTick (Binary64.of_Z (irq cpu)) in
       (Binary64.add totalIdle (Binary64.of_Z (idle cpu)), totalTick))
    cpus (Binary64.zero, Binary64.zero).

(** [{ idle, total }]: the averages over the cores. *)
Definition cpu_reading (cpus : list cpu_times) : Binary64.float * Binary64.float :=
  let '(totalIdle, totalTick) := sum_ticks cpus in
  let n := Binary64.of_Z (Z.of_nat (List.length cpus)) in
  (Binary64.div totalIdle n, Binary64.div totalTick n).

(** [100 - ~~(100 * idleDifference / totalDifference)], clamped. *)
Definition cpu_percentage (previous current : Binary64.float * Binary64.float) : Z :=
  let idleDifference := Binary64.sub (fst current) (fst previous) in
  let totalDifference := Binary64.sub (snd current) (snd previous) in
  let cpuPercentage :=
    100 - Binary64.to_int32
            (Binary64.div (Binary64.mul (Binary64.of_Z 100) idleDifference)
                          totalDifference) in
  Z.max 0 (Z.min 100 cpuPercentage).

Definition getCpuUsage (cpus : list cpu_times) : M (option Z) :=
  let '(idle, total) := cpu_reading cpus in
  previous <- get_previousCpuInfo ;;
  match previous with
  | None =>
      set_previousCpuInfo idle total ;;
      ret None
  | Some previous =>
      let usage := cpu_percentage previous (idle, total) in
      set_previousCpuInfo idle total ;;
      ret (Some usage)
  end.

Definition getRamUsage (totalMem freeMem : Z) : ram_info :=
  let usedMem := totalMem - freeMem in
  let totalMemMB := round (div (div (of_Z totalMem) (of_Z 1024)) (of_Z 1024)) in
  let usedMemMB := round (div (div (of_Z usedMem) (of_Z 1024)) (of_Z 1024)) in
  let usagePercent := round (mul (div (of_Z usedMem) (of_Z totalMem)) (of_Z 100)) in
  {| totalMemMB := totalMemMB; usedMemMB := usedMemMB;
     ram_usagePercent := usagePercent;
     freeMem := sub totalMemMB usedMemMB |}.

(** [getDiskUsage()], given what [df -BG / | tail -1] did; [None] is
    [undefined]. *)
Definition getDiskUsage (df : exec_result) : option disk_info :=
  match df with
  | ExecFailed _ => None
  | ExecOk stdout =>
      let parts := split_ws (trim stdout) in
      if (5 <=? List.length parts)%nat then
        Some {| totalGB := parseInt (remove_first "G" (nth 1 parts ""));
                usedGB := parseInt (remove_first "G" (nth 2 parts ""));
                availGB := parseInt (remove_first "G" (nth 3 parts ""));
                disk_usagePercent := parseInt (remove_first "%" (nth 4 parts "")) |}
      else None
  end.

Section Thresholds.
Variable th : thresholds.

(** The three checks, each updating [status] and [warnings]. *)
Definition check_ram (ramInfo : ram_info) (st : severity * list warning)
  : severity * list warning :=
  let '(status, warnings) := st in
  if ge (ram_usagePercent ramInfo) (of_Z (RAM_CRITICAL_THRESHOLD th)) then
    (Critical, (warnings ++ [RamCritical ramInfo])%list)
  else if ge (ram_usagePercent ramInfo) (of_Z (RAM_WARNING_THRESHOLD th)) then
    (Warning, (warnings ++ [RamHigh ramInfo])%list)
  else st.

Definition keep_critical (status : severity) : severity :=
  match status with Critical => Critical | _ => Warning end.

Definition check_cpu (cpuUsage : Z) (st : severity * list warning)
  : severity * list warning :=
  let '(status, warnings) := st in
  if CPU_CRITICAL_THRESHOLD th <=? cpuUsage then
    (Critical, (warnings ++ [CpuCritical cpuUsage])%list)
  else if CPU_WARNING_THRESHOLD th <=? cpuUsage then
    (keep_critical status, (warnings ++ [CpuHigh cpuUsage])%list)
  else st.

Definition check_disk (diskInfo : option disk_info) (st : severity * list warning)
  : severity * list warning :=
  let '(status, warnings) := st in
  match diskInfo with
  | Some d =>
      if ge (disk_usagePercent d) (of_Z (DISK_CRITICAL_THRESHOLD th)) then
        (Critical, (warnings ++ [DiskCritical d])%list)
      else if ge (disk_usagePercent d) (of_Z (DISK_WARNING_THRESHOLD th)) then
        (keep_critical status, (warnings ++ [DiskLow d])%list)
      else st
  | None => st
  end.

Definition classify (cpuUsage : Z) (ramInfo : ram_info)
           (diskInfo : option disk_info) : severity * list warning :=
  check_disk diskInfo (check_cpu cpuUsage (check_ram ramInfo (Healthy, []))).

Definition render (w : warning) : string :=
  match w with
  | RamCritical r =>
      "RAM critically low: " ++ show (ram_usagePercent r) ++ "% used ("
      ++ show (usedMemMB r) ++ "MB / " ++ show (totalMemMB r) ++ "MB)"
  | RamHigh r =>
      "RAM usage high: " ++ show (ram_usagePercent r) ++ "% used ("
      ++ show (usedMemMB r) ++ "MB / " ++ show (totalMemMB r) ++ "MB)"
  | CpuCritical c => "CPU critically high: " ++ show_Z c ++ "%"
  | CpuHigh c => "CPU usage high: " ++ show_Z c ++ "%"
  | DiskCritical d =>
      "Disk storage critically low: " ++ show (disk_usagePercent d)
      ++ "% used (" ++ show (availGB d) ++ "GB free)"
  | DiskLow d =>
      "Disk storage low: " ++ show (disk_usagePercent d)
      ++ "% used (" ++ show (availGB d) ++ "GB free)"
  end.

(** [warnings.length > 0 ? warnings.join('; ') : null] *)
Definition warningMessage (warnings : list warning) : option string :=
  match warnings with
  | [] => None
  | _ => Some (join "; " (map render warnings))
  end.

Definition severity_eqb (a b : severity) : bool :=
  match a, b with
  | Healthy, Healthy | Warning, Warning | Critical, Critical => true
  | _, _ => false
  end.

(** [!lastStatus || lastStatus.status !== status] *)
Definition statusChanged (lastStatus : option severity) (status : severity) : bool :=
  match lastStatus with
  | None => true
  | Some s => negb (severity_eqb s status)
  end.

(** [lastStatus && lastStatus.status !== 'healthy'] *)
Definition last_unhealthy (lastStatus : option severity) : bool :=
  match lastStatus with
  | None => false
  | Some s => negb (severity_eqb s Healthy)
  end.

Definition checkSystemHealth (host : host_reading) : M health_result :=
  cpuUsage <- getCpuUsage (os_cpus host) ;;
  let ramInfo := getRamUsage (os_totalmem host) (os_freemem host) in
  let diskInfo := getDiskUsage (df_root host) in
  match cpuUsage with
  | None => ret Initializing
  | Some cpuUsage =>
      let '(status, warnings) := classify cpuUsage ramInfo diskInfo in
      lastStatus <- getLastSystemStatus ;;
      let changed := statusChanged lastStatus status in
      when (changed && negb (severity_eqb status Healthy))
           (sendToAllUsers
              (SystemAlert status cpuUsage ramInfo diskInfo (map render warnings))) ;;
      when (changed && severity_eqb status Healthy && last_unhealthy lastStatus)
           (sendToAllUsers (SystemRecovery cpuUsage ramInfo diskInfo)) ;;
      insertSystemMetric
        {| MetricRow.cpu_usage := cpuUsage;
           MetricRow.ram_used_mb := usedMemMB ramInfo;
           MetricRow.ram_total_mb := totalMemMB ramInfo;
           MetricRow.ram_usage_percent := ram_usagePercent ramInfo;
           MetricRow.disk_used_gb := option_map usedGB diskInfo;
           MetricRow.disk_total_gb := option_map totalGB diskInfo;
           MetricRow.disk_usage_percent := option_map disk_usagePercent diskInfo;
           MetricRow.status := status;
           MetricRow.warning_message := warningMessage warnings |} ;;
      ret (Checked status cpuUsage ramInfo diskInfo
                   (match warnings with [] => None | _ => Some warnings end))
  end.

End Thresholds.

Definition default_thresholds : thresholds := thresholds_of_env (fun _ => None).

End System.

(** ** The words of the specification for system health *)

Module HealthSpec.
Import JsNumber System.

(** A resource's own severity, from its two thresholds. *)
Definition bucket (usage : number) (warning critical : Z) : severity :=
  if ge usage (of_Z critical) then Critical
  else if ge usage (of_Z warning) then Warning
  else Healthy.

Definition rank (s : severity) : Z :=
  match s with Healthy => 0 | Warning => 1 | Critical => 2 end.

Definition sev_max (a b : severity) : severity :=
  if rank a <=? rank b then b else a.

Definition ram_severity (th : thresholds) (ram : ram_info) : severity :=
  bucket (ram_usagePercent ram) (RAM_WARNING_THRESHOLD th) (RAM_CRITICAL_THRESHOLD th).

Definition cpu_severity (th : thresholds) (cpuUsage : Z) : severity :=
  bucket (of_Z cpuUsage) (CPU_WARNING_THRESHOLD th) (CPU_CRITICAL_THRESHOLD th).

(** Absent disk metrics take no part: they count as healthy. *)
Definition disk_severity (th : thresholds) (disk : option disk_info) : severity :=
  match disk with
  | Some d => bucket (disk_usagePercent d)
                     (DISK_WARNING_THRESHOLD th) (DISK_CRITICAL_THRESHOLD th)
  | None => Healthy
  end.

(** "the maximum severity across CPU, RAM, and (if present) disk" *)
Definition overall_severity (th : thresholds) (cpuUsage : Z) (ram : ram_info)
           (disk : option disk_info) : severity :=
  sev_max (cpu_severity th cpuUsage)
          (sev_max (ram_severity th ram) (disk_severity th disk)).

Definition resource_severity (th : thresholds) (cpuUsage : Z) (ram : ram_info)
           (disk : option disk_info) (r : resource) : severity :=
  match r with
  | Ram => ram_severity th ram
  | Cpu => cpu_severity th cpuUsage
  | Disk => disk_severity th disk
  end.

(** Is the resource at or above its warning threshold? *)
Definition at_warning (th : thresholds) (cpuUsage : Z) (ram : ram_info)
           (disk : option disk_info) (r : resource) : bool :=
  match r with
  | Ram => ge (ram_usagePercent ram) (of_Z (RAM_WARNING_THRESHOLD th))
  | Cpu => ge (of_Z cpuUsage) (of_Z (CPU_WARNING_THRESHOLD th))
  | Disk => match disk with
            | Some d => ge (disk_usagePercent d) (of_Z (DISK_WARNING_THRESHOLD th))
            | None => false
            end
  end.

Definition thresholds_ordered (th : thresholds) : Prop :=
  RAM_WARNING_THRESHOLD th <= RAM_CRITICAL_THRESHOLD th
  /\ CPU_WARNING_THRESHOLD th <= CPU_CRITICAL_THRESHOLD th
  /\ DISK_WARNING_THRESHOLD th <= DISK_CRITICAL_THRESHOLD th.

(** "100 - 100 x (idle_delta / total_delta), clamped to [0, 100]" *)
Definition cpu_pct_exact (idle_delta total_delta : Q) : Q :=
  Qmax 0 (Qmin 100 (100 - 100 * (idle_delta / total_delta))).

(** The row one check writes and the messages it sends, from the values
    it computed and the last persisted severity. *)
Definition metric_row (cpuUsage : Z) (ram : ram_info) (disk : option disk_info)
           (status : severity) (warnings : list warning) : MetricRow.t :=
  {| MetricRow.cpu_usage := cpuUsage;
     MetricRow.ram_used_mb := usedMemMB ram;
     MetricRow.ram_total_mb := totalMemMB ram;
     MetricRow.ram_usage_percent := ram_usagePercent ram;
     MetricRow.disk_used_gb := option_map usedGB disk;
     MetricRow.disk_total_gb := option_map totalGB disk;
     MetricRow.disk_usage_percent := option_map disk_usagePercent disk;
     MetricRow.status := status;
     MetricRow.warning_message := warningMessage warnings |}.

Definition alert_messages (last : option severity) (status : severity)
           (cpuUsage : Z) (ram : ram_info) (disk : option disk_info)
           (warnings : list warning) : list message :=
  if statusChanged last status && negb (severity_eqb status Healthy)
  then [SystemAlert status cpuUsage ram disk (map render warnings)] else [].

Definition recovery_messages (last : option severity) (status : severity)
           (cpuUsage : Z) (ram : ram_info) (disk : option disk_info)
  : list message :=
  if statusChanged last status && severity_eqb status Healthy && last_unhealthy last
  then [SystemRecovery cpuUsage ram disk] else [].

Definition is_alert (m : message) : bool :=
  match m with SystemAlert _ _ _ _ _ => true | _ => false end.

Definition is_recovery_message (m : message) : bool :=
  match m with SystemRecovery _ _ _ => true | _ => false end.

(** The CPU values of successive sampling calls. *)
Fixpoint cpu_samples (readings : list (list cpu_times)) (w : world)
  : list (option Z) :=
  match readings with
  | [] => []
  | cpus :: rest =>
      let '(v, w') := getCpuUsage cpus w in v :: cpu_samples rest w'
  end.

Definition with_baseline (w : world) (b : Binary64.float * Binary64.float) : world :=
  {| tests := tests w; system_metrics := system_metrics w;
     previousCpuInfo := Some b; log := log w |}.

(** Is the resource above healthy, by its own thresholds? *)
Definition flagged (th : thresholds) (cpuUsage : Z) (ram : ram_info)
           (disk : option disk_info) (r : resource) : bool :=
  negb (severity_eqb (resource_severity th cpuUsage ram disk r) Healthy).


Definition warnings_of (r : health_result) : list warning :=
  match r with
  | Checked _ _ _ _ (Some ws) => ws
  | _ => []
  end.

Definition status_of (r : health_result) : option severity :=
  match r with
  | Initializing => None
  | Checked s _ _ _ _ => Some s
  end.

End HealthSpec.

(** ** The effects of a probe *)

Module ProbeSpec.
Import Tests.

(** What a probe does to the world: it reads the last result of its
    target, writes the row, then sends the messages; nothing else
    changes. *)
Definition probe_effects (k : kind) (cfg : test_config) (row : TestRow.t)
           (msgs : list message) (w w' : world) : Prop :=
  tests w' = row :: tests w
  /\ system_metrics w' = system_metrics w
  /\ previousCpuInfo w' = previousCpuInfo w
  /\ log w' = (log w ++ [GetLastTestResult (target cfg) k; InsertTestResult row]
                 ++ map SendToAllUsers msgs)%list.

(** The row a run has just written. *)
Definition written (w : world) : option TestRow.t := hd_error (tests w).

End ProbeSpec.

(** ** Sample inputs *)

Module Sample.
Import JsNumber System HealthSpec.

(** The reading of the bootstrapping call: idle 20 of 30 ticks. *)
Definition cpu0 : cpu_times := {| user := 10; nice := 0; sys := 0; idle := 20; irq := 0 |}.
(** 8 ticks after [cpu0], 1 of them idle. *)
Definition cpu1 : cpu_times := {| user := 17; nice := 0; sys := 0; idle := 21; irq := 0 |}.
(** 10 ticks after [cpu0], all idle; and 10 more, all idle. *)
Definition idle_a : cpu_times := {| user := 10; nice := 0; sys := 0; idle := 30; irq := 0 |}.
Definition idle_b : cpu_times := {| user := 10; nice := 0; sys := 0; idle := 40; irq := 0 |}.
Definition idle_c : cpu_times := {| user := 10; nice := 0; sys := 0; idle := 50; irq := 0 |}.
(** 10 ticks after [cpu0], none idle. *)
Definition busy_a : cpu_times := {| user := 20; nice := 0; sys := 0; idle := 20; irq := 0 |}.

(** Three cores: 10 ticks in all, none idle; then 1000 more, 210 idle. *)
Definition three_cores_before : list cpu_times :=
  [ {| user := 4; nice := 0; sys := 0; idle := 0; irq := 0 |};
    {| user := 3; nice := 0; sys := 0; idle := 0; irq := 0 |};
    {| user := 3; nice := 0; sys := 0; idle := 0; irq := 0 |} ].
Definition three_cores_after : list cpu_times :=
  [ {| user := 270; nice := 0; sys := 0; idle := 70; irq := 0 |};
    {| user := 270; nice := 0; sys := 0; idle := 70; irq := 0 |};
    {| user := 260; nice := 0; sys := 0; idle := 70; irq := 0 |} ].

(** The world after the bootstrapping sample of [cpu0]. *)
Definition booted : world := snd (getCpuUsage [cpu0] empty_world).

Definition GiB : Z := 1024 * 1024 * 1024.
Definition df_failed : exec_result := ExecFailed "Command failed: df -BG / | tail -1".

(** 8 GiB of memory, 90% of it used; an idle CPU; no [df]. *)
Definition host_ram90 : host_reading :=
  {| os_cpus := [idle_a]; os_totalmem := 8 * GiB; os_freemem := 858993459;
     df_root := df_failed |}.

(** The same one cycle later. *)
Definition host_ram90_again : host_reading :=
  {| os_cpus := [idle_b]; os_totalmem := 8 * GiB; os_freemem := 858993459;
     df_root := df_failed |}.

Definition host_ram90_third : host_reading :=
  {| os_cpus := [idle_c]; os_totalmem := 8 * GiB; os_freemem := 858993459;
     df_root := df_failed |}.

(** 96% of the memory used and a busy CPU. *)
Definition host_ram96_busy : host_reading :=
  {| os_cpus := [busy_a]; os_totalmem := 8 * GiB; os_freemem := 343597384;
     df_root := df_failed |}.

(** 85% of the memory used, an idle CPU. *)
Definition host_ram85 : host_reading :=
  {| os_cpus := [idle_a]; os_totalmem := 8 * GiB; os_freemem := 1288490189;
     df_root := df_failed |}.

(** A quiet host. *)
Definition host_quiet : host_reading :=
  {| os_cpus := [idle_a]; os_totalmem := 8 * GiB; os_freemem := 4 * GiB;
     df_root := ExecOk "/dev/sda1   50G   20G   28G  42% /" |}.

(** Thresholds with the RAM pair the wrong way round. *)
Definition swapped_ram_thresholds : thresholds :=
  thresholds_of_env
    (fun k => if String.eqb k "RAM_WARNING_THRESHOLD" then Some "90"
              else if String.eqb k "RAM_CRITICAL_THRESHOLD" then Some "80"
              else None).

Definition api : Tests.test_config :=
  {| Tests.name := "API"; Tests.target := "https://api.example.com/health" |}.
Definition db : Tests.test_config :=
  {| Tests.name := "DB"; Tests.target := "db.internal:5432" |}.
Definition abort_error : js_error :=
  {| err_name := "AbortError"; err_message := "This operation was aborted";
     err_code := "" |}.

(** The endpoint timed out once; on the next cycle it answers 500. *)
Definition api_down : world :=
  snd (Tests.runHttpTest api (Rejected abort_error) 10000 empty_world).
Definition api_still_down : Tests.probe_result * world :=
  Tests.runHttpTest api (Responded 500) 120 api_down.

(** The database port does not answer. *)
Definition db_timeout : Tests.probe_result * world :=
  Tests.runTcpTest db TimedOut 5000 empty_world.

(** It does not answer three cycles in a row, then it does. *)
Definition db_recovered : Tests.probe_result * world :=
  Tests.runTcpTest db Connected 12
    (snd (Tests.runTcpTest db TimedOut 5000
       (snd (Tests.runTcpTest db TimedOut 5000 (snd db_timeout))))).

(** Three consecutive checks with RAM at 90%, after the bootstrap. *)
Definition cycle1 : health_result * world :=
  checkSystemHealth default_thresholds host_ram90 booted.
Definition cycle2 : health_result * world :=
  checkSystemHealth default_thresholds host_ram90_again (snd cycle1).
Definition cycle3 : health_result * world :=
  checkSystemHealth default_thresholds host_ram90_third (snd cycle2).

End Sample.

(** ** [src/tests.js], [runAllTests] *)

(** What the network does during one cycle: the answer met by the i-th
    HTTP probe and by the i-th TCP probe of the cycle, with the elapsed
    milliseconds. *)
Record network := {
  fetch_of : nat -> fetch_result * Z;
  connect_of : nat -> connect_result * Z
}.

Module Cycle.
Import JsString JsNumber Eff Tests.
Local Open Scope eff_scope.

Definition default_http_tests : list test_config :=
  [ {| name := "Test API"; target := "https://httpbin.org/status/200" |};
    {| name := "GitHub API"; target := "https://api.github.com" |} ].

Definition default_tcp_tests : list test_config :=
  [ {| name := "Google Web"; target := "google.com:80" |};
    {| name := "GitHub HTTPS"; target := "github.com:443" |} ].

(** [if (process.env.X) { parseTestConfig(process.env.X) } else { defaults }]:
    an unset variable and the empty string are both falsy. *)
Definition configured_tests (v : option string) (defaults : list test_config)
  : list test_config :=
  match v with
  | Some s => if truthy s then parseTestConfig s else defaults
  | None => defaults
  end.

(** An element of [results]: [{ type, ...result }]. *)
Record cycle_result := { type : kind; result : probe_result }.

(** [for (const testConfig of httpTests) { ... results.push(...) }] *)
Fixpoint run_http_tests (httpTests : list test_config) (i : nat) (net : network)
         (results : list cycle_result) : M (list cycle_result) :=
  match httpTests with
  | [] => ret results
  | testConfig :: rest =>
      result <- runHttpTest testConfig (fst (fetch_of net i)) (snd (fetch_of net i)) ;;
      run_http_tests rest (S i) net
        (results ++ [{| type := Http; result := result |}])%list
  end.

(** How the promise of [runAllTests] settles: with [results], or with the
    error that [socket.connect] threw for a target ([await runTcpTest]
    throws and nothing catches it). *)
Inductive cycle_outcome :=
| Completed (results : list cycle_result)
| Threw (testConfig : test_config).

(** [for (const testConfig of tcpTests) { ... results.push(...) }]: the
    loop ends at the first target whose port is refused.  The orphaned
    timer of that target fires after the cycle has settled; what it does
    then is [runTcpTest testConfig TimedOut]. *)
Fixpoint run_tcp_tests (tcpTests : list test_config) (i : nat) (net : network)
         (results : list cycle_result) : M cycle_outcome :=
  match tcpTests with
  | [] => ret (Completed results)
  | testConfig :: rest =>
      if connect_throws (target testConfig) then ret (Threw testConfig)
      else
        result <- runTcpTest testConfig (fst (connect_of net i))
                             (snd (connect_of net i)) ;;
        run_tcp_tests rest (S i) net
          (results ++ [{| type := Tcp; result := result |}])%list
  end.

Definition runAllTests (env : string -> option string) (net : network)
  : M cycle_outcome :=
  let httpTests := configured_tests (env "HTTP_ENDPOINTS") default_http_tests in
  let tcpTests := configured_tests (env "TCP_HOSTS") default_tcp_tests in
  results <- run_http_tests httpTests 0 net [] ;;
  run_tcp_tests tcpTests 0 net results.

End Cycle.

(** ** [src/system.js], [getSystemMetrics] *)

Record host_identity := {
  os_hostname : string;
  os_platform : string;
  os_uptime : JsNumber.number
}.

Module Metrics.
Import JsNumber Eff System.
Local Open Scope eff_scope.

Record metrics := {
  cpu : option Z;
  ram : ram_info;
  hostname : string;
  platform : string;
  uptime : number
}.

Definition getSystemMetrics (host : host_reading) (id : host_identity) : M metrics :=
  cpuUsage <- getCpuUsage (os_cpus host) ;;
  let ramInfo := getRamUsage (os_totalmem host) (os_freemem host) in
  ret {| cpu := cpuUsage; ram := ramInfo; hostname := os_hostname id;
         platform := os_platform id; uptime := os_uptime id |}.

End Metrics.

(** ** [telegram.js] *)

Module Telegram.
Import JsString.

Section Delivery.
(** The text being sent. *)
Variable text : Type.

(** One call of [bot.sendMessage]; [delivered] is false when it rejected
    (the error is caught and logged by [sendMessage]). *)
Record attempt := { chat : string; body : text; delivered : bool }.

(** [bot] is [undefined] until [initTelegram] ran: calling it throws a
    TypeError inside the [try]. *)
Definition sendMessage (bot : option (string -> text -> bool))
           (chatId : string) (message : text) : attempt :=
  {| chat := chatId; body := message;
     delivered := match bot with
                  | Some send => send chatId message
                  | None => false
                  end |}.

(** [None]: the promise rejects (TypeError on [undefined.split]). *)
Definition sendToAllUsers (TELEGRAM_CHAT_IDS : option string)
           (bot : option (string -> text -> bool)) (message : text)
  : option (list attempt) :=
  match TELEGRAM_CHAT_IDS with
  | None => None
  | Some ids =>
      let chatIds := map trim (split "," ids) in
      Some (fold_left
              (fun attempts chatId =>
                 if truthy chatId
                 then (attempts ++ [sendMessage bot chatId message])%list
                 else attempts)
              chatIds [])
  end.

End Delivery.

End Telegram.

(** ** [src/scheduler.js] *)

(** What a schedule runs when it fires. *)
Inductive job := RunAllTests | CheckSystemHealth | GenerateDailyReport.

(** A task of node-cron: its expression, its callback, and whether it is
    still scheduled. *)
Record task := { expression : string; callback : job; running : bool }.

(** The continuations that [startMonitoring] leaves behind. *)
Inductive continuation :=
| TestsDone (intervalMinutes : Z)    (* [runAllTests().then(...)] *)
| BaselineDone (minutes : Z)         (* [checkSystemHealth().then(...)] *)
| GraceElapsed (minutes : Z).        (* the [setTimeout(..., 2000)] callback *)

Module Scheduler.
Import JsString JsNumber.

(** The module's three variables hold positions in [cron], the tasks that
    node-cron was given so far (oldest first); [None] is [undefined].
    [cron.schedule] is taken to accept every expression it is given. *)
Record state := {
  cron : list task;
  testInterval : option nat;
  dailyReportTask : option nat;
  systemMonitorInterval : option nat;
  pending : list continuation;
  calls : list job            (* the functions invoked so far, oldest first *)
}.












Fixpoint stop_at (i : nat) (l : list task) : list task :=
  match l, i with
  | [], _ => []
  | t :: rest, O =>
      {| expression := expression t; callback := callback t; running := false |} :: rest
  | t :: rest, S i' => t :: stop_at i' rest
  end.

(** [if (handle) { handle.stop() }] *)
Definition stop_handle (h : option nat) (l : list task) : list task :=
  match h with
  | Some i => stop_at i l
  | None => l
  end.

Definition stopMonitoring (s : state) : state :=
  {| cron := stop_handle (dailyReportTask s)
               (stop_handle (systemMonitorInterval s)
                  (stop_handle (testInterval s) (cron s)));
     testInterval := testInterval s; dailyReportTask := dailyReportTask s;
     systemMonitorInterval := systemMonitorInterval s;
     pending := pending s; calls := calls s |}.

(** What can happen to the scheduler after it started. *)
Inductive event :=
| Resume (i : nat)     (* the i-th pending continuation runs *)
| Fire (i : nat)       (* the clock reaches the i-th task's expression *)
| Stop.                (* [stopMonitoring()] *)





End Scheduler.

(** ** [src/index.js] *)

Module Index.
Import JsString JsNumber Tests Cycle.

(** [!process.env.X] is false exactly for a set, non-empty variable. *)
Definition env_truthy (v : option string) : bool :=
  match v with
  | Some s => truthy s
  | None => false
  end.

(** [test.target.length > 60 ? test.target.substring(0, 60) + '...' : test.target] *)
Definition displayTarget (target : string) : string :=
  if (60 <? String.length target)%nat then substring 0 60 target ++ "..." else target.

Definition display_line (test : test_config) : string * string :=
  (name test, displayTarget (target test)).

(** The test list of the startup message. *)
Inductive startup_tests :=
| ConfiguredTests (http tcp : list (string * string))
    (* "Configured Tests (n total)", then the HTTP and the TCP lines *)
| UsingDefaults.
    (* "No custom tests configured. Using defaults." and the four defaults *)

Record startup_message := {
  users : nat;
  intervalMinutes : Z;
  reportHour : string;
  listed : startup_tests
}.

Definition startupMessage (env : string -> option string) : startup_message :=
  let httpTests := configured_tests (env "HTTP_ENDPOINTS") default_http_tests in
  let tcpTests := configured_tests (env "TCP_HOSTS") default_tcp_tests in
  let totalTests := (List.length httpTests + List.length tcpTests)%nat in
  let ids := match env "TELEGRAM_CHAT_IDS" with Some s => s | None => "" end in
  {| users := List.length (split "," ids);
     intervalMinutes := parseInt_or (env "TEST_INTERVAL_MINUTES") 5;
     reportHour := match env "DAILY_REPORT_HOUR" with
                   | Some h => or_else h "9"
                   | None => "9"
                   end;
     listed := if (0 <? totalTests)%nat
               then ConfiguredTests (map display_line httpTests)
                                    (map display_line tcpTests)
               else UsingDefaults |}.

(** What [main] does, in order; [initTelegram], [sendToAllUsers] and
    [generateDailyReport] are taken not to throw. *)
Inductive action :=
| Exit (code : Z)
| InitTelegram (token : string)
| SendStatusToAllUsers
| GenerateReport
| SendStartupMessage (chatId : string) (m : startup_message)
| WarnNoChatId
| StartMonitoring (intervalMinutes : Z).

Definition main (args : list string) (env : string -> option string) : list action :=
  let sendStatus := existsb (String.eqb "--status") args in
  let sendReport := existsb (String.eqb "--report") args in
  let runMonitoring := negb sendStatus && negb sendReport in
  if negb (env_truthy (env "TELEGRAM_BOT_TOKEN")) then [Exit 1]
  else if negb (env_truthy (env "TELEGRAM_CHAT_IDS")) then [Exit 1]
  else
    let token := match env "TELEGRAM_BOT_TOKEN" with Some t => t | None => "" end in
    let ids := match env "TELEGRAM_CHAT_IDS" with Some s => s | None => "" end in
    InitTelegram token ::
    if sendStatus then [SendStatusToAllUsers; Exit 0]
    else if sendReport then [GenerateReport; Exit 0]
    else if runMonitoring then
      let m := startupMessage env in
      let firstChatId := first (map trim (split "," ids)) in
      (if truthy firstChatId then SendStartupMessage firstChatId m else WarnNoChatId)
        :: [StartMonitoring (intervalMinutes m)]
    else [].

End Index.

(** ** Printed integers and [df] lines *)

Module TextSpec.
Import JsString JsNumber.

Fixpoint all_chars (f : ascii -> bool) (s : string) : bool :=
  match s with
  | "" => true
  | String c s' => f c && all_chars f s'
  end.

Definition no_ws (s : string) : bool := all_chars (fun c => negb (is_ws c)) s.
Definition only_ws (s : string) : bool := all_chars is_ws s.

(** A field of a line: not empty, no whitespace in it. *)
Definition field (s : string) : bool := truthy s && no_ws s.

(** A gap between two fields: not empty, whitespace only. *)
Definition gap (s : string) : bool := truthy s && only_ws s.

(** A character of a printed integer. *)
Definition sign_or_digit (c : ascii) : bool :=
  match digit_of c with
  | Some _ => true
  | None => Ascii.eqb c "-"
  end.

(** The value of a decimal numeral read from the left, [acc] being the
    value of the digits already read. *)
Fixpoint uint_value (d : Decimal.uint) (acc : Z) : Z :=
  match d with
  | Decimal.Nil => acc
  | Decimal.D0 l => uint_value l (10 * acc)
  | Decimal.D1 l => uint_value l (10 * acc + 1)
  | Decimal.D2 l => uint_value l (10 * acc + 2)
  | Decimal.D3 l => uint_value l (10 * acc + 3)
  | Decimal.D4 l => uint_value l (10 * acc + 4)
  | Decimal.D5 l => uint_value l (10 * acc + 5)
  | Decimal.D6 l => uint_value l (10 * acc + 6)
  | Decimal.D7 l => uint_value l (10 * acc + 7)
  | Decimal.D8 l => uint_value l (10 * acc + 8)
  | Decimal.D9 l => uint_value l (10 * acc + 9)
  end.

(** The last line of [df -BG /]: the six columns
    Filesystem, Size, Used, Avail, Use%, Mounted on. *)
Record df_row := {
  filesystem : string;
  size_gb : Z;
  used_gb : Z;
  avail_gb : Z;
  use_percent : Z;
  mounted_on : string
}.

(** The whitespace of a line: before the first column, between the
    columns (each gap of its own width, as [df] aligns them), and after
    the last. *)
Record df_spacing := {
  leading : string;
  gap1 : string; gap2 : string; gap3 : string; gap4 : string; gap5 : string;
  trailing : string
}.

Definition spacing_ok (sp : df_spacing) : bool :=
  only_ws (leading sp)
  && gap (gap1 sp) && gap (gap2 sp) && gap (gap3 sp) && gap (gap4 sp)
  && gap (gap5 sp)
  && only_ws (trailing sp).

Definition df_line (r : df_row) (sp : df_spacing) : string :=
  leading sp ++ filesystem r
  ++ gap1 sp ++ (show_Z (size_gb r) ++ "G")
  ++ gap2 sp ++ (show_Z (used_gb r) ++ "G")
  ++ gap3 sp ++ (show_Z (avail_gb r) ++ "G")
  ++ gap4 sp ++ (show_Z (use_percent r) ++ "%")
  ++ gap5 sp ++ mounted_on r ++ trailing sp.

End TextSpec.

(** ** The words for a test cycle *)

Module CycleSpec.
Import Tests Cycle.

(** What identifies the row of a probe, and the entry of [results]. *)
Definition row_key (r : TestRow.t) : kind * string * string :=
  (TestRow.test_type r, TestRow.test_name r, TestRow.target r).

Definition test_key (k : kind) (c : test_config) : kind * string * string :=
  (k, name c, target c).

Definition row_outcome (r : TestRow.t) : kind * string * outcome :=
  (TestRow.test_type r, TestRow.test_name r, TestRow.status r).

Definition result_outcome (c : cycle_result) : kind * string * outcome :=
  (type c, result_name (result c), status (result c)).

(** The TCP tests a cycle gets to: those before the first one whose port
    is refused; and that one, if any. *)
Fixpoint accepted_prefix (l : list test_config) : list test_config :=
  match l with
  | [] => []
  | c :: rest =>
      if connect_throws (target c) then [] else c :: accepted_prefix rest
  end.

Definition first_refused (l : list test_config) : option test_config :=
  find (fun c => connect_throws (target c)) l.

(** Does the row come with a message: a failure or a recovery? *)
Definition notified (r : TestRow.t) : bool :=
  is_failed (TestRow.status r) || TestRow.is_recovery r.

(** What a run of probes leaves: the rows written (oldest first), one
    message for each notified row, the other tables untouched. *)
Definition wrote (rows : list TestRow.t) (w w' : world) : Prop :=
  tests w' = (rev rows ++ tests w)%list
  /\ List.length (sent (log w'))
     = (List.length (sent (log w)) + List.length (filter notified rows))%nat
  /\ system_metrics w' = system_metrics w
  /\ previousCpuInfo w' = previousCpuInfo w.

End CycleSpec.

(** ** The phases of a started scheduler *)

Module SchedulerSpec.
Import Scheduler.

(** Which continuations have run: the one for the tests (T), the one for
    the baseline (B), the one after the grace period (G). *)
Inductive phase := Began | T | B | TB | BG | TBG | BGT.




(** The phase after the [i]-th pending continuation ran, and the calls
    made by then: the one after the grace period calls [checkSystemHealth]. *)
Definition next (ph : phase) (i : nat) : phase :=
  match ph, i with
  | Began, 0%nat => T
  | Began, 1%nat => B
  | T, 0%nat => TB
  | B, 0%nat => TB
  | B, 1%nat => BG
  | TB, 0%nat => TBG
  | BG, 0%nat => BGT
  | _, _ => ph
  end.





End SchedulerSpec.

(** ** More sample inputs *)

Module MoreSamples.
Import JsNumber TextSpec.

Definition newline : string := String (ascii_of_nat 10) "".

Definition root_disk : df_row :=
  {| filesystem := "/dev/sda1"; size_gb := 50; used_gb := 20; avail_gb := 28;
     use_percent := 42; mounted_on := "/" |}.

(** A TCP list whose first target has no port; a network where every
    endpoint answers. *)
Definition env_portless : string -> option string :=
  fun k => if String.eqb k "TCP_HOSTS" then Some "localhost,db.internal:5432"
           else None.
Definition net_up : network :=
  {| fetch_of := fun _ => (Responded 200, 35);
     connect_of := fun _ => (Connected, 4) |}.

(** The spacing of [/dev/sda1        50G   20G   28G  42% /]. *)
Definition aligned : df_spacing :=
  {| leading := ""; gap1 := "        "; gap2 := "   "; gap3 := "   ";
     gap4 := "  "; gap5 := " "; trailing := newline |}.

Definition sample_env : string -> option string :=
  fun k =>
    if String.eqb k "TELEGRAM_BOT_TOKEN" then Some "12345:ABC"
    else if String.eqb k "TELEGRAM_CHAT_IDS" then Some "123456789, ,987654321"
    else if String.eqb k "DAILY_REPORT_HOUR" then Some "0"
    else None.


(** The process restarted after a check that stored a warning. *)
Definition restarted : world :=
  {| tests := tests (snd Sample.cycle1);
     system_metrics := system_metrics (snd Sample.cycle1);
     previousCpuInfo := None; log := [] |}.

End MoreSamples.

(* ================================================================= *)
(** * Properties *)

Section StringFacts.
Import JsString.

Lemma split_not_nil sep s : split sep s <> [].
Proof.
  destruct s as [|c s]; simpl; [discriminate|].
  destruct (Ascii.eqb c sep); [discriminate|].
  destruct (split sep s); discriminate.
Qed.

Lemma split_no_sep sep s : mem sep s = false -> split sep s = [s].
Proof.
  induction s as [|c s IH]; simpl; intros H; [reflexivity|].
  apply orb_false_iff in H as [Hc Hs].
  rewrite Hc, (IH Hs). reflexivity.
Qed.

Lemma split_app_sep sep a b :
  mem sep a = false -> split sep (a ++ String sep b) = a :: split sep b.
Proof.
  induction a as [|c a IH]; simpl; intros H.
  - rewrite Ascii.eqb_refl. reflexivity.
  - apply orb_false_iff in H as [Hc Ha].
    rewrite Hc, (IH Ha). reflexivity.
Qed.

Lemma split_sep_two sep s :
  mem sep s = true -> exists p q ps, split sep s = p :: q :: ps.
Proof.
  induction s as [|c s IH]; simpl; [discriminate|].
  destruct (Ascii.eqb c sep) eqn:Hc; simpl; intros H.
  - destruct (split sep s) as [|q ps] eqn:E.
    + now apply split_not_nil in E.
    + now exists "", q, ps.
  - destruct (IH H) as (p & q & ps & E). rewrite E.
    now exists (String c p), q, ps.
Qed.

Lemma truthy_eqb e : truthy e = negb (String.eqb e "").
Proof. destruct e; reflexivity. Qed.

Lemma first_split_cons sep c s :
  first (split sep (String c s)) =
  if Ascii.eqb c sep then "" else String c (first (split sep s)).
Proof.
  simpl. destruct (Ascii.eqb c sep); [reflexivity|].
  destruct (split sep s) eqn:E; [now apply split_not_nil in E | reflexivity].
Qed.

(** *** Trimming *)

Lemma trimStart_head s :
  trimStart s = "" \/
  exists c r, trimStart s = String c r /\ is_ws c = false.
Proof.
  induction s as [|c s IH]; simpl; [now left|].
  destruct (is_ws c) eqn:E; [exact IH|].
  right. now exists c, s.
Qed.

Lemma trimEnd_head c r :
  is_ws c = false -> exists r', trimEnd (String c r) = String c r'.
Proof.
  intros H. simpl. destruct (trimEnd r).
  - rewrite H. now exists "".
  - eexists. reflexivity.
Qed.

Lemma trimEnd_idem s : trimEnd (trimEnd s) = trimEnd s.
Proof.
  induction s as [|c s IH]; simpl; [reflexivity|].
  destruct (trimEnd s) as [|d t] eqn:E.
  - destruct (is_ws c) eqn:W; simpl; [reflexivity|]. now rewrite W.
  - change (trimEnd (String c (String d t)) = String c (String d t)).
    remember (String d t) as u. simpl. rewrite IH. subst u. reflexivity.
Qed.

Lemma trim_idem s : trim (trim s) = trim s.
Proof.
  unfold trim.
  destruct (trimStart_head s) as [E | (c & r & E & W)]; rewrite E.
  - reflexivity.
  - destruct (trimEnd_head c r W) as [r' E'].
    rewrite E'. simpl trimStart. rewrite W.
    rewrite <- E'. apply trimEnd_idem.
Qed.

Lemma push_loop {A B} (f : A -> B) (l : list A) (acc : list B) :
  fold_left (fun tests x => (tests ++ [f x])%list) l acc = (acc ++ map f l)%list.
Proof.
  revert acc. induction l as [|x l IH]; intros acc; simpl.
  - now rewrite app_nil_r.
  - rewrite IH, <- app_assoc. reflexivity.
Qed.

End StringFacts.

Section NameFacts.
Import JsString NameSpec.

Lemma after_last_none c s : mem c s = false -> after_last c s = s.
Proof.
  destruct s as [|a s]; simpl; [reflexivity|].
  intros H. apply orb_false_iff in H as [Ha Hs]. now rewrite Hs, Ha.
Qed.

Lemma mem_app c p q : mem c (p ++ q) = mem c p || mem c q.
Proof.
  induction p as [|a p IH]; simpl; [reflexivity|].
  now rewrite IH, orb_assoc.
Qed.

(** [after_last] is the text that follows the last separator. *)
Lemma after_last_app c p q :
  mem c q = false -> after_last c (p ++ String c q) = q.
Proof.
  intros Hq. induction p as [|a p IH]; simpl.
  - now rewrite Hq, Ascii.eqb_refl.
  - rewrite mem_app. simpl. rewrite Ascii.eqb_refl, orb_true_r. exact IH.
Qed.

Lemma before_first_none c s : mem c s = false -> before_first c s = s.
Proof.
  induction s as [|a s IH]; simpl; [reflexivity|].
  intros H. apply orb_false_iff in H as [Ha Hs]. now rewrite Ha, IH.
Qed.

(** [before_first] is the text that precedes the first separator. *)
Lemma before_first_app c p q :
  mem c p = false -> before_first c (p ++ String c q) = p.
Proof.
  induction p as [|a p IH]; simpl; intros H.
  - now rewrite Ascii.eqb_refl.
  - apply orb_false_iff in H as [Ha Hp]. now rewrite Ha, IH.
Qed.

Lemma pop_split c s : pop (split c s) = after_last c s.
Proof.
  unfold pop. induction s as [|a s IH]; [reflexivity|].
  simpl split. simpl after_last.
  destruct (mem c s) eqn:M.
  - destruct (split_sep_two c s M) as (p & q & ps & E).
    rewrite E in *. rewrite <- IH.
    destruct (Ascii.eqb a c); reflexivity.
  - rewrite (split_no_sep c s M).
    destruct (Ascii.eqb a c); reflexivity.
Qed.

Lemma first_split c s : first (split c s) = before_first c s.
Proof.
  induction s as [|a s IH]; [reflexivity|].
  rewrite first_split_cons. simpl. now rewrite IH.
Qed.

Lemma derived_name_code t :
  or_else (pop (split "/" t)) (or_else (first (split ":" t)) t) =
  derived_name t.
Proof.
  rewrite pop_split, first_split. unfold derived_name, or_else.
  destruct (after_last "/" t); simpl; [|reflexivity].
  destruct (before_first ":" t); reflexivity.
Qed.

Lemma kept_items_trimmed s e :
  In e (kept_items s) ->
  e <> "" /\ trim e = e /\ exists item, In item (split "," s) /\ e = trim item.
Proof.
  unfold kept_items. intros H. apply filter_In in H as [H Hne].
  apply in_map_iff in H as (item & <- & Hin).
  repeat split.
  - intros E. rewrite E in Hne. discriminate.
  - apply trim_idem.
  - now exists item.
Qed.

End NameFacts.

Section ParseTestConfig.
Import JsString NameSpec Tests.

Lemma parse_entry_named a b :
  mem "|" a = false -> mem "|" b = false ->
  parse_entry (a ++ "|" ++ b) = {| name := trim a; target := trim b |}.
Proof.
  intros Ha Hb. unfold parse_entry.
  change (a ++ "|" ++ b) with (a ++ String "|" b).
  rewrite (split_app_sep _ a b Ha), (split_no_sep _ b Hb). reflexivity.
Qed.

Lemma parse_entry_unnamed e :
  mem "|" e = false -> trim e = e ->
  parse_entry e = {| name := derived_name e; target := e |}.
Proof.
  intros He Ht. unfold parse_entry.
  rewrite (split_no_sep _ e He). simpl map. unfold first at 1. simpl hd.
  rewrite Ht, derived_name_code. reflexivity.
Qed.

Example parseTestConfig_readme :
  parseTestConfig "API|https://api.com, Web | https://site.com ,, db.internal:5432,https://x.org/health,http://h:80/" =
  [ {| name := "API"; target := "https://api.com" |};
    {| name := "Web"; target := "https://site.com" |};
    {| name := "db.internal:5432"; target := "db.internal:5432" |};
    {| name := "health"; target := "https://x.org/health" |};
    {| name := "http"; target := "http://h:80/" |} ].
Proof. reflexivity. Qed.

(** C10. [parseTestConfig] returns, in order, one entry per comma-separated
    item that does not trim to the empty string (the others are dropped).
    A kept item [a|b] with a single bar gives the name [a] and the target
    [b], both trimmed.  A kept item without a bar is itself the target, and
    its name is the text after its last slash (the whole item when it has
    no slash), or, when that is empty, the text before its first colon, or,
    when that is empty too, the whole target. *)
Theorem parseTestConfig_spec (configString : string) :
  parseTestConfig configString = map parse_entry (kept_items configString)
  /\ (forall e, In e (kept_items configString) ->
        e <> "" /\ exists item,
          In item (split "," configString) /\ e = trim item)
  /\ (forall e a b, In e (kept_items configString) ->
        e = a ++ "|" ++ b -> mem "|" a = false -> mem "|" b = false ->
        parse_entry e = {| name := trim a; target := trim b |})
  /\ (forall e, In e (kept_items configString) -> mem "|" e = false ->
        parse_entry e = {| name := derived_name e; target := e |}).
Proof.
  repeat split.
  - unfold parseTestConfig, kept_items. rewrite push_loop. simpl.
    f_equal. apply filter_ext. intros e. apply truthy_eqb.
  - now apply kept_items_trimmed in H.
  - apply kept_items_trimmed in H. tauto.
  - intros e a b _ -> Ha Hb. now apply parse_entry_named.
  - intros e Hin He. apply parse_entry_unnamed; [exact He|].
    now apply kept_items_trimmed in Hin.
Qed.

End ParseTestConfig.

Section Examples.
Import JsString JsNumber.

Example parseInt_examples :
  parseInt " 42G" = of_Z 42 /\ parseInt "-7%" = of_Z (-7) /\ parseInt "G" = NaN
  /\ parseInt "0x1f" = of_Z 31.
Proof. vm_compute. repeat split. Qed.

Example to_int32_examples :
  to_int32 (Fin (25 # 2)) = 12 /\ to_int32 (Fin (-25 # 2)) = -12
  /\ to_int32 (of_Z (2 ^ 31)) = - 2 ^ 31 /\ to_int32 NaN = 0.
Proof. vm_compute. repeat split. Qed.

Example round_examples :
  round (Fin (5 # 2)) = of_Z 3 /\ round (Fin (-5 # 2)) = of_Z (-2).
Proof. vm_compute. repeat split. Qed.

Example split_ws_examples :
  split_ws "a  b " = ["a"; "b"; ""] /\ split_ws " a" = [""; "a"]
  /\ split_ws "" = [""].
Proof. vm_compute. repeat split. Qed.

Example getDiskUsage_df :
  System.getDiskUsage (ExecOk "/dev/sda1   50G   20G   28G  42% /") =
  Some {| totalGB := of_Z 50; usedGB := of_Z 20; availGB := of_Z 28;
          disk_usagePercent := of_Z 42 |}.
Proof. vm_compute. reflexivity. Qed.

End Examples.

(** ** The sampler and the health check *)

Section HealthRuns.
Import JsNumber Eff System HealthSpec.

Variable th : thresholds.

Lemma getCpuUsage_first cpus w :
  previousCpuInfo w = None ->
  getCpuUsage cpus w = (None, with_baseline w (cpu_reading cpus)).
Proof.
  intros H. unfold getCpuUsage, with_baseline.
  destruct (cpu_reading cpus) as [i t].
  unfold bind, get_previousCpuInfo. rewrite H. reflexivity.
Qed.

Lemma getCpuUsage_next cpus w p :
  previousCpuInfo w = Some p ->
  getCpuUsage cpus w =
  (Some (cpu_percentage p (cpu_reading cpus)), with_baseline w (cpu_reading cpus)).
Proof.
  intros H. unfold getCpuUsage, with_baseline.
  destruct (cpu_reading cpus) as [i t].
  unfold bind, get_previousCpuInfo. rewrite H. reflexivity.
Qed.

Lemma cpu_percentage_bounds p c : 0 <= cpu_percentage p c <= 100.
Proof. unfold cpu_percentage. lia. Qed.

(** The first check only records the baseline. *)
Lemma checkSystemHealth_first host w :
  previousCpuInfo w = None ->
  checkSystemHealth th host w =
  (Initializing, with_baseline w (cpu_reading (os_cpus host))).
Proof.
  intros H. unfold checkSystemHealth, bind at 1.
  rewrite (getCpuUsage_first _ _ H). reflexivity.
Qed.

(** Every later check: what it returns, writes and sends. *)
Lemma checkSystemHealth_checked host w p :
  previousCpuInfo w = Some p ->
  let cur := cpu_reading (os_cpus host) in
  let cpu := cpu_percentage p cur in
  let ram := getRamUsage (os_totalmem host) (os_freemem host) in
  let disk := getDiskUsage (df_root host) in
  let status := fst (classify th cpu ram disk) in
  let warnings := snd (classify th cpu ram disk) in
  let last := last_system_status (system_metrics w) in
  let row := metric_row cpu ram disk status warnings in
  checkSystemHealth th host w =
  (Checked status cpu ram disk
           (match warnings with [] => None | _ => Some warnings end),
   {| tests := tests w;
      system_metrics := row :: system_metrics w;
      previousCpuInfo := Some cur;
      log := (log w ++ GetLastSystemStatus
                :: map SendToAllUsers
                     (alert_messages last status cpu ram disk warnings
                      ++ recovery_messages last status cpu ram disk)
                ++ [InsertSystemMetric row])%list |}).
Proof.
  intros H. cbv zeta. unfold checkSystemHealth, bind at 1.
  rewrite (getCpuUsage_next _ _ _ H).
  unfold alert_messages, recovery_messages, metric_row.
  destruct (classify th _ _ _) as [status warnings]. simpl fst. simpl snd.
  unfold bind, getLastSystemStatus, insertSystemMetric, sendToAllUsers, when, ret,
    emit, with_baseline; simpl.
  destruct (statusChanged _ status && negb (severity_eqb status Healthy));
    destruct (statusChanged _ status && severity_eqb status Healthy && last_unhealthy _);
    simpl; repeat rewrite <- app_assoc; reflexivity.
Qed.

End HealthRuns.

(** ** CPU sampling *)

Section CpuSampling.
Import JsNumber Eff System HealthSpec.

Lemma cpu_samples_with_baseline readings :
  forall w p, previousCpuInfo w = Some p ->
  exists vs, cpu_samples readings w = map Some vs
             /\ List.length vs = List.length readings
             /\ Forall (fun v => 0 <= v <= 100) vs.
Proof.
  induction readings as [|cpus rest IH]; intros w p H.
  - exists []. repeat split. constructor.
  - simpl. rewrite (getCpuUsage_next _ _ _ H).
    destruct (IH (with_baseline w (cpu_reading cpus)) (cpu_reading cpus) eq_refl)
      as (vs & E & L & B).
    exists (cpu_percentage p (cpu_reading cpus) :: vs). simpl.
    rewrite E, L. repeat split.
    constructor; [apply cpu_percentage_bounds | exact B].
Qed.

(** C5. With no baseline, the sampling call yields no percentage and the
    health check answers "initializing", writes no row and sends nothing:
    only the baseline changes.  Every later sampling call yields a
    percentage between 0 and 100, whatever the two readings are (equal
    totals included). *)
Theorem cpu_first_sample_indeterminate_then_bounded
        (th : thresholds) (host : host_reading) (w : world) :
  previousCpuInfo w = None ->
  (fst (checkSystemHealth th host w) = Initializing
   /\ tests (snd (checkSystemHealth th host w)) = tests w
   /\ system_metrics (snd (checkSystemHealth th host w)) = system_metrics w
   /\ log (snd (checkSystemHealth th host w)) = log w
   /\ previousCpuInfo (snd (checkSystemHealth th host w))
      = Some (cpu_reading (os_cpus host)))
  /\ (forall cpus rest, exists vs,
        cpu_samples (cpus :: rest) w = None :: map Some vs
        /\ List.length vs = List.length rest
        /\ Forall (fun v => 0 <= v <= 100) vs)
  /\ (forall previous current, 0 <= cpu_percentage previous current <= 100).
Proof.
  intros H. split; [|split].
  - rewrite (checkSystemHealth_first th host w H). repeat split.
  - intros cpus rest. simpl. rewrite (getCpuUsage_first _ _ H).
    destruct (cpu_samples_with_baseline rest
                (with_baseline w (cpu_reading cpus)) _ eq_refl) as (vs & E & L & B).
    exists vs. rewrite E. auto.
  - intros. apply cpu_percentage_bounds.
Qed.

Lemma wrap32_small z : - 2 ^ 31 <= z < 2 ^ 31 -> wrap32 z = z.
Proof.
  intros H. unfold wrap32.
  destruct (Z_lt_le_dec z 0) as [Hn | Hp].
  - replace (z mod 2 ^ 32) with (z + 2 ^ 32).
    + destruct (Z.ltb_spec (z + 2 ^ 32) (2 ^ 31)); lia.
    + apply Z.mod_unique with (q := -1); lia.
  - rewrite Z.mod_small by lia.
    destruct (Z.ltb_spec z (2 ^ 31)); lia.
Qed.

Lemma trunc_nonneg q : (0 <= q)%Q -> trunc q = Qfloor q.
Proof.
  intros H. unfold trunc. apply Qle_bool_iff in H. now rewrite H.
Qed.

Lemma div_by_zero_to_int32 x y :
  Binary64.is_zero y = true -> Binary64.to_int32 (Binary64.div x y) = 0.
Proof.
  destruct y as [sy| | |]; try discriminate. intros _.
  destruct x as [sx|sx| |sx mx ex]; try reflexivity;
    destruct sx, sy; reflexivity.
Qed.

(** C8, amended.  With a baseline, the sampling call leaves the reading
    as the new baseline and yields 100 - T clamped to [0, 100], where T
    is the double (100 x idle_delta) / total_delta, the deltas being the
    differences of doubles, truncated toward zero and wrapped to 32 bits;
    T is 0 when that double is NaN or infinite, as it is when total_delta
    is zero.  When the double lies between 0 and 100 the result is 100
    minus its floor: the value 100 - q rounded up to an integer. *)
Theorem cpu_percentage_truncated_quotient
        (cpus : list cpu_times) (w : world) (p : Binary64.float * Binary64.float) :
  previousCpuInfo w = Some p ->
  let cur := cpu_reading cpus in
  let idle_delta := Binary64.sub (fst cur) (fst p) in
  let total_delta := Binary64.sub (snd cur) (snd p) in
  let quotient :=
    Binary64.div (Binary64.mul (Binary64.of_Z 100) idle_delta) total_delta in
  previousCpuInfo (snd (getCpuUsage cpus w)) = Some cur
  /\ (Binary64.is_zero total_delta = true -> fst (getCpuUsage cpus w) = Some 100)
  /\ ((forall q, Binary64.value quotient <> Fin q) ->
      fst (getCpuUsage cpus w) = Some 100)
  /\ (forall q, Binary64.value quotient = Fin q ->
        fst (getCpuUsage cpus w)
        = Some (Z.max 0 (Z.min 100 (100 - wrap32 (trunc q))))
        /\ ((0 <= q)%Q -> (q <= 100)%Q ->
            exists v,
              fst (getCpuUsage cpus w) = Some v
              /\ v = 100 - Qfloor q
              /\ (100 - q <= inject_Z v)%Q
              /\ (inject_Z v < 100 - q + 1)%Q)).
Proof.
  intros Hw cur idle_delta total_delta quotient.
  rewrite (getCpuUsage_next _ _ _ Hw). cbn [fst snd].
  fold cur. unfold cpu_percentage.
  fold idle_delta. fold total_delta. fold quotient.
  split; [reflexivity|]. split; [|split].
  - intros Hz. unfold quotient. now rewrite div_by_zero_to_int32.
  - intros Hn. unfold Binary64.to_int32.
    destruct (Binary64.value quotient) as [q| | |]; try reflexivity.
    now destruct (Hn q).
  - intros q Hq. unfold Binary64.to_int32. rewrite Hq. cbn [to_int32].
    split; [reflexivity|]. intros H0 H100.
    assert (F0 : 0 <= Qfloor q).
    { change 0 with (Qfloor 0). now apply Qfloor_resp_le. }
    assert (F100 : Qfloor q <= 100).
    { rewrite <- (Qfloor_Z 100). now apply Qfloor_resp_le. }
    rewrite (trunc_nonneg q H0), wrap32_small by lia.
    exists (100 - Qfloor q). split; [f_equal; lia|]. split; [reflexivity|].
    pose proof (Qfloor_le q) as L. pose proof (Qlt_floor q) as U.
    unfold Z.sub. rewrite inject_Z_plus, inject_Z_opp.
    rewrite inject_Z_plus in U.
    change (inject_Z 100) with 100%Q. change (inject_Z 1) with 1%Q in U.
    split; lra.
Qed.

End CpuSampling.

Section CpuSamplingExamples.
Import JsNumber Eff System HealthSpec Sample.

Lemma cpu_first_sample_witness :
  previousCpuInfo empty_world = None
  /\ fst (checkSystemHealth default_thresholds host_quiet empty_world) = Initializing.
Proof.
  split; [reflexivity|].
  exact (proj1 (proj1 (cpu_first_sample_indeterminate_then_bounded
                         default_thresholds host_quiet empty_world eq_refl))).
Defined.

(** C8, as stated, fails: from the baseline (idle 20, total 30) the
    reading (idle 21, total 38) has idle_delta 1 and total_delta 8, all of
    them exact as doubles; the code yields 88, the formula
    100 - 100 x (1/8) = 87.5. *)
Lemma cpu_percentage_is_not_the_exact_quotient :
  previousCpuInfo booted = Some (Binary64.of_Z 20, Binary64.of_Z 30)
  /\ cpu_reading [cpu1] = (Binary64.of_Z 21, Binary64.of_Z 38)
  /\ fst (getCpuUsage [cpu1] booted) = Some 88
  /\ (cpu_pct_exact (21 - 20) (38 - 30) == 175 # 2)%Q
  /\ ~ (inject_Z 88 == 175 # 2)%Q.
Proof.
  repeat split; try (vm_compute; reflexivity).
  unfold Qeq. simpl. lia.
Qed.

(** The quotient is the rounded one.  On three cores whose idle times go
    from 0 to 210 in all and whose times go from 10 to 1010, the averages
    are 10/3 and 1010/3 rounded, the double quotient is just below 21 and
    the code yields 80, where the exact deltas 70 and 1000/3 give 79. *)
Lemma cpu_percentage_rounds_in_binary64 :
  cpu_reading three_cores_before
  = (Binary64.zero, Binary64.div (Binary64.of_Z 10) (Binary64.of_Z 3))
  /\ cpu_reading three_cores_after
     = (Binary64.of_Z 70, Binary64.div (Binary64.of_Z 1010) (Binary64.of_Z 3))
  /\ cpu_percentage (cpu_reading three_cores_before) (cpu_reading three_cores_after)
     = 80
  /\ (cpu_pct_exact 70 (1000 # 3) == 79)%Q.
Proof. repeat split; vm_compute; reflexivity. Qed.

Lemma cpu_percentage_truncated_witness :
  previousCpuInfo booted = Some (cpu_reading [cpu0])
  /\ previousCpuInfo (snd (getCpuUsage [cpu1] booted)) = Some (cpu_reading [cpu1])
  /\ fst (getCpuUsage [cpu1] booted) = Some 88.
Proof.
  pose proof (cpu_percentage_truncated_quotient [cpu1] booted (cpu_reading [cpu0])
                eq_refl) as (B & _ & _ & H).
  split; [reflexivity|]. split; [exact B|].
  exact (proj1 (H _ eq_refl)).
Defined.

End CpuSamplingExamples.

(** ** Severity and warnings *)

Section Classification.
Import JsString JsNumber Eff System HealthSpec.

Variable th : thresholds.

Lemma ge_of_Z a b : ge (of_Z a) (of_Z b) = (b <=? a).
Proof.
  unfold ge, of_Z, Qle_bool. simpl. now rewrite !Z.mul_1_r.
Qed.

Lemma ge_of_Z_mono x a b : a <= b -> ge x (of_Z b) = true -> ge x (of_Z a) = true.
Proof.
  intros Hab. destruct x as [q| | |]; simpl; auto.
  rewrite !Qle_bool_iff. intros H.
  apply Qle_trans with (inject_Z b); [|exact H].
  now rewrite <- Zle_Qle.
Qed.

Ltac split_buckets :=
  repeat match goal with
         | |- context [ge ?x ?y] => destruct (ge x y) eqn:?
         | |- context [?a <=? ?b] => destruct (a <=? b) eqn:?
         end.

Lemma classify_status cpu ram disk :
  fst (classify th cpu ram disk) = overall_severity th cpu ram disk.
Proof.
  unfold classify, overall_severity, cpu_severity, ram_severity, disk_severity,
    bucket, check_ram, check_cpu, check_disk.
  rewrite !ge_of_Z.
  destruct disk as [d|]; split_buckets; reflexivity.
Qed.

Lemma classify_warnings cpu ram disk :
  map resource_of (snd (classify th cpu ram disk)) =
  filter (flagged th cpu ram disk) [Ram; Cpu; Disk].
Proof.
  unfold classify, flagged, resource_severity, cpu_severity, ram_severity,
    disk_severity, bucket, check_ram, check_cpu, check_disk. cbn [filter].
  rewrite ?ge_of_Z.
  destruct disk as [d|]; split_buckets; reflexivity.
Qed.

Lemma flagged_at_warning cpu ram disk r :
  thresholds_ordered th ->
  flagged th cpu ram disk r = at_warning th cpu ram disk r.
Proof.
  intros (Hr & Hc & Hd).
  unfold flagged, at_warning, resource_severity, cpu_severity, ram_severity,
    disk_severity, bucket.
  destruct r; [| |destruct disk as [d|]; [|reflexivity]];
    match goal with
    | |- context [ge ?x (of_Z ?c)] =>
        destruct (ge x (of_Z c)) eqn:E;
        [ erewrite ge_of_Z_mono by eassumption; reflexivity | ]
    end;
    match goal with
    | |- context [if ge ?x ?y then _ else _] => destruct (ge x y); reflexivity
    end.
Qed.


End Classification.

Section SampleSeverity.
Import JsString JsNumber Eff System HealthSpec.

Variable th : thresholds.

Lemma sev_max_critical_r x y : sev_max x (sev_max Critical y) = Critical.
Proof. destruct x, y; reflexivity. Qed.

Lemma filter_three_nil (f : resource -> bool) :
  filter f [Ram; Cpu; Disk] = [] <-> forall r, f r = false.
Proof.
  simpl. split.
  - intros H r.
    destruct (f Ram) eqn:E1; [discriminate|].
    destruct (f Cpu) eqn:E2; [discriminate|].
    destruct (f Disk) eqn:E3; [discriminate|].
    destruct r; assumption.
  - intros H. now rewrite !H.
Qed.


(** C6. A check that produces a sample gives it, in its answer and in the
    row it writes, the greatest of the severities of CPU, RAM and (when
    there are disk metrics) disk, each taken from the resource's own two
    thresholds.  With RAM thresholds 85 and 95, RAM at 90% and the others
    healthy is a warning; RAM at 96% is critical whatever the others are. *)
Theorem overall_severity_is_max_of_resources
        (host : host_reading) (w : world) (p : Binary64.float * Binary64.float) :
  previousCpuInfo w = Some p ->
  let cpu := cpu_percentage p (cpu_reading (os_cpus host)) in
  let ram := getRamUsage (os_totalmem host) (os_freemem host) in
  let disk := getDiskUsage (df_root host) in
  let overall := overall_severity th cpu ram disk in
  status_of (fst (checkSystemHealth th host w)) = Some overall
  /\ option_map MetricRow.status
       (hd_error (system_metrics (snd (checkSystemHealth th host w))))
     = Some overall
  /\ (RAM_WARNING_THRESHOLD th = 85 -> RAM_CRITICAL_THRESHOLD th = 95 ->
      ram_usagePercent ram = of_Z 90 ->
      ram_severity th ram = Warning
      /\ (cpu_severity th cpu = Healthy -> disk_severity th disk = Healthy ->
          overall = Warning))
  /\ (RAM_WARNING_THRESHOLD th = 85 -> RAM_CRITICAL_THRESHOLD th = 95 ->
      ram_usagePercent ram = of_Z 96 ->
      overall = Critical).
Proof.
  intros H cpu ram disk overall.
  pose proof (checkSystemHealth_checked th host w p H) as E. cbv zeta in E.
  rewrite E. clear E.
  cbn [fst snd status_of system_metrics hd_error option_map MetricRow.status metric_row].
  rewrite classify_status.
  split; [reflexivity|]. split; [reflexivity|]. split.
  - intros Hw Hc Hr.
    assert (R : ram_severity th ram = Warning).
    { unfold ram_severity. rewrite Hw, Hc, Hr. reflexivity. }
    split; [exact R|].
    intros Hcpu Hdisk. unfold overall, overall_severity.
    rewrite Hcpu, Hdisk, R. reflexivity.
  - intros Hw Hc Hr. unfold overall, overall_severity.
    replace (ram_severity th ram) with Critical.
    + apply sev_max_critical_r.
    + unfold ram_severity. rewrite Hw, Hc, Hr. reflexivity.
Qed.

(** C7, amended.  A check that produces a sample lists in its warnings
    exactly the resources that are above healthy by their own thresholds
    (at or above the warning or the critical threshold; with each warning
    threshold at most the critical one: at or above the warning threshold),
    RAM first, then CPU, then disk, the disk only when there are disk
    metrics.  The message written is the warnings joined by "; ", and it
    is NULL exactly when no resource is listed. *)
Theorem warnings_listed_ram_cpu_disk
        (host : host_reading) (w : world) (p : Binary64.float * Binary64.float) :
  previousCpuInfo w = Some p ->
  let cpu := cpu_percentage p (cpu_reading (os_cpus host)) in
  let ram := getRamUsage (os_totalmem host) (os_freemem host) in
  let disk := getDiskUsage (df_root host) in
  let warnings := snd (classify th cpu ram disk) in
  fst (checkSystemHealth th host w)
  = Checked (fst (classify th cpu ram disk)) cpu ram disk
            (match warnings with [] => None | _ => Some warnings end)
  /\ option_map MetricRow.warning_message
       (hd_error (system_metrics (snd (checkSystemHealth th host w))))
     = Some (match warnings with
             | [] => None
             | _ => Some (join "; " (map render warnings))
             end)
  /\ map resource_of warnings = filter (flagged th cpu ram disk) [Ram; Cpu; Disk]
  /\ (thresholds_ordered th ->
      forall r, flagged th cpu ram disk r = at_warning th cpu ram disk r)
  /\ (warnings = [] <-> forall r, flagged th cpu ram disk r = false).
Proof.
  intros H cpu ram disk warnings.
  pose proof (checkSystemHealth_checked th host w p H) as E. cbv zeta in E.
  rewrite E. clear E.
  cbn [fst snd system_metrics hd_error option_map MetricRow.warning_message
       metric_row warningMessage].
  pose proof (classify_warnings th cpu ram disk) as W. fold warnings in W.
  repeat split; try assumption.
  - intros Ho r. now apply flagged_at_warning.
  - intros E. apply filter_three_nil. rewrite <- W, E. reflexivity.
  - intros Hall. apply filter_three_nil in Hall. rewrite Hall in W.
    now apply map_eq_nil in W.
Qed.




End SampleSeverity.

Section SampleSeverityExamples.
Import JsString JsNumber Eff System HealthSpec Sample.

Lemma overall_severity_witness :
  previousCpuInfo booted = Some (cpu_reading [cpu0])
  /\ status_of (fst (checkSystemHealth default_thresholds host_ram90 booted))
     = Some Warning.
Proof.
  split; [reflexivity|].
  exact (proj1 (overall_severity_is_max_of_resources
                  default_thresholds host_ram90 booted _ eq_refl)).
Defined.

Example ram_96_is_critical :
  status_of (fst (checkSystemHealth default_thresholds host_ram96_busy booted))
  = Some Critical.
Proof. vm_compute. reflexivity. Qed.

(** C7, as stated, fails.  With the default thresholds, RAM at 96% and
    CPU at 100% are listed RAM first.  With the RAM thresholds the wrong
    way round (warning 90, critical 80), RAM at 85% is listed though it is
    below its warning threshold. *)
Lemma warnings_list_ram_before_cpu :
  map resource_of
      (warnings_of (fst (checkSystemHealth default_thresholds host_ram96_busy booted)))
  = [Ram; Cpu]
  /\ option_map MetricRow.warning_message
       (hd_error (system_metrics
          (snd (checkSystemHealth default_thresholds host_ram96_busy booted))))
     = Some (Some "RAM critically low: 96% used (7864MB / 8192MB); CPU critically high: 100%")
  /\ map resource_of
       (warnings_of (fst (checkSystemHealth swapped_ram_thresholds host_ram85 booted)))
     = [Ram]
  /\ ram_usagePercent (getRamUsage (os_totalmem host_ram85) (os_freemem host_ram85))
     = of_Z 85
  /\ RAM_WARNING_THRESHOLD swapped_ram_thresholds = 90.
Proof. vm_compute. repeat split. Qed.

Lemma warnings_listed_witness :
  previousCpuInfo booted = Some (cpu_reading [cpu0])
  /\ map resource_of
       (snd (classify default_thresholds
               (cpu_percentage (cpu_reading [cpu0]) (cpu_reading (os_cpus host_ram90)))
               (getRamUsage (os_totalmem host_ram90) (os_freemem host_ram90))
               (getDiskUsage (df_root host_ram90))))
     = [Ram].
Proof.
  split; [reflexivity|].
  pose proof (warnings_listed_ram_cpu_disk
                default_thresholds host_ram90 booted (cpu_reading [cpu0]) eq_refl) as H.
  cbv zeta in H. destruct H as (_ & _ & H & _).
  rewrite H. vm_compute. reflexivity.
Defined.



Example short_df_output_gives_no_disk_info :
  getDiskUsage (ExecOk "df: command not found") = None
  /\ getDiskUsage (ExecOk "") = None.
Proof. split; reflexivity. Qed.

End SampleSeverityExamples.

(** ** System alerts *)

Section SystemAlerts.
Import JsNumber Eff System HealthSpec.

Variable th : thresholds.

Lemma sent_app l1 l2 : sent (l1 ++ l2) = (sent l1 ++ sent l2)%list.
Proof.
  induction l1 as [|e l1 IH]; simpl; [reflexivity|].
  destruct e; simpl; now rewrite IH.
Qed.

Lemma sent_sends ms : sent (map SendToAllUsers ms) = ms.
Proof. induction ms as [|m ms IH]; simpl; [reflexivity | now rewrite IH]. Qed.

(** The messages of one check that has a baseline. *)
Lemma checkSystemHealth_sent host w p :
  previousCpuInfo w = Some p ->
  let cpu := cpu_percentage p (cpu_reading (os_cpus host)) in
  let ram := getRamUsage (os_totalmem host) (os_freemem host) in
  let disk := getDiskUsage (df_root host) in
  let status := fst (classify th cpu ram disk) in
  let last := last_system_status (system_metrics w) in
  sent (log (snd (checkSystemHealth th host w)))
  = (sent (log w)
     ++ alert_messages last status cpu ram disk (snd (classify th cpu ram disk))
     ++ recovery_messages last status cpu ram disk)%list.
Proof.
  intros H. cbv zeta.
  pose proof (checkSystemHealth_checked th host w p H) as E. cbv zeta in E.
  rewrite E. cbn [snd log].
  rewrite sent_app. cbn [sent]. rewrite sent_app, sent_sends.
  cbn [sent]. now rewrite app_nil_r.
Qed.

Lemma alert_due_iff last S :
  statusChanged last S && negb (severity_eqb S Healthy) = true
  <-> last <> Some S /\ S <> Healthy.
Proof.
  destruct last as [[]|], S; simpl; split; intros H;
    try discriminate; try (split; congruence); destruct H; congruence.
Qed.

Lemma recovery_due_iff last S :
  statusChanged last S && severity_eqb S Healthy && last_unhealthy last = true
  <-> S = Healthy /\ exists prev, last = Some prev /\ prev <> Healthy.
Proof.
  destruct last as [[]|], S; simpl; split; intros H;
    try discriminate;
    try (split; [reflexivity | eexists; split; [reflexivity | congruence]]);
    destruct H as [H1 (prev & H2 & H3)]; congruence.
Qed.

Lemma alert_messages_iff last S cpu ram disk ws :
  (exists a, In a (alert_messages last S cpu ram disk ws) /\ is_alert a = true)
  <-> last <> Some S /\ S <> Healthy.
Proof.
  rewrite <- alert_due_iff. unfold alert_messages.
  destruct (statusChanged last S && negb (severity_eqb S Healthy)); split.
  - reflexivity.
  - intros _. eexists. split; [left; reflexivity | reflexivity].
  - intros (a & [] & _).
  - discriminate.
Qed.

Lemma recovery_messages_iff last S cpu ram disk :
  (exists m, In m (recovery_messages last S cpu ram disk)
             /\ is_recovery_message m = true)
  <-> S = Healthy /\ exists prev, last = Some prev /\ prev <> Healthy.
Proof.
  rewrite <- recovery_due_iff. unfold recovery_messages.
  destruct (statusChanged last S && severity_eqb S Healthy && last_unhealthy last);
    split.
  - reflexivity.
  - intros _. eexists. split; [left; reflexivity | reflexivity].
  - intros (a & [] & _).
  - discriminate.
Qed.

Lemma one_alert_iff last S cpu ram disk ws :
  S <> Healthy ->
  (alert_messages last S cpu ram disk ws
     ++ recovery_messages last S cpu ram disk
   = [SystemAlert S cpu ram disk (map render ws)])%list
  <-> last <> Some S.
Proof.
  unfold alert_messages, recovery_messages.
  destruct last as [[]|], S; simpl; intros HS; split; intros H;
    congruence.
Qed.

Lemma repeated_status_silent S cpu ram disk ws :
  (alert_messages (Some S) S cpu ram disk ws
     ++ recovery_messages (Some S) S cpu ram disk = [])%list.
Proof.
  unfold alert_messages, recovery_messages. destruct S; reflexivity.
Qed.

Lemma at_most_one_message last S cpu ram disk ws :
  (List.length (alert_messages last S cpu ram disk ws
                  ++ recovery_messages last S cpu ram disk) <= 1)%nat.
Proof.
  unfold alert_messages, recovery_messages.
  destruct last as [[]|], S; simpl; lia.
Qed.

Lemma checkSystemHealth_after host w p :
  previousCpuInfo w = Some p ->
  let cpu := cpu_percentage p (cpu_reading (os_cpus host)) in
  let ram := getRamUsage (os_totalmem host) (os_freemem host) in
  let disk := getDiskUsage (df_root host) in
  let status := fst (classify th cpu ram disk) in
  status_of (fst (checkSystemHealth th host w)) = Some status
  /\ previousCpuInfo (snd (checkSystemHealth th host w))
     = Some (cpu_reading (os_cpus host))
  /\ last_system_status (system_metrics (snd (checkSystemHealth th host w)))
     = Some status.
Proof.
  intros H. cbv zeta.
  pose proof (checkSystemHealth_checked th host w p H) as E. cbv zeta in E.
  rewrite E. repeat split.
Qed.

(** C2, amended.  A check that produces a sample of severity S, with P the
    last persisted severity (or none), sends at most one message.  It sends
    an alert iff S differs from P and S is not healthy; it sends a recovery
    message iff S is healthy and P exists and is not healthy; and S is then
    the last persisted severity.  So when the next check has the same
    non-healthy severity S, that second check sends nothing, and the first
    one sent exactly one alert iff P was absent or differed from S (it sent
    nothing when P was S already). *)
Theorem system_alert_on_severity_change
        (host host' : host_reading) (w : world) (p : Binary64.float * Binary64.float) :
  previousCpuInfo w = Some p ->
  let last := last_system_status (system_metrics w) in
  let first := checkSystemHealth th host w in
  let second := checkSystemHealth th host' (snd first) in
  exists S msgs,
    status_of (fst first) = Some S
    /\ sent (log (snd first)) = (sent (log w) ++ msgs)%list
    /\ (List.length msgs <= 1)%nat
    /\ ((exists a, In a msgs /\ is_alert a = true)
        <-> last <> Some S /\ S <> Healthy)
    /\ ((exists m, In m msgs /\ is_recovery_message m = true)
        <-> S = Healthy /\ exists prev, last = Some prev /\ prev <> Healthy)
    /\ last_system_status (system_metrics (snd first)) = Some S
    /\ (S <> Healthy -> status_of (fst second) = Some S ->
        sent (log (snd second)) = sent (log (snd first))
        /\ ((exists a, msgs = [a] /\ is_alert a = true) <-> last <> Some S)
        /\ (last = Some S -> msgs = [])).
Proof.
  intros H last first second.
  destruct (checkSystemHealth_after host w p H) as (Hs & Hb & Hl).
  pose proof (checkSystemHealth_sent host w p H) as Hm. cbv zeta in Hm.
  set (cpu := cpu_percentage p (cpu_reading (os_cpus host))) in *.
  set (ram := getRamUsage (os_totalmem host) (os_freemem host)) in *.
  set (disk := getDiskUsage (df_root host)) in *.
  set (S := fst (classify th cpu ram disk)) in *.
  set (ws := snd (classify th cpu ram disk)) in *.
  fold last in Hm.
  exists S, (alert_messages last S cpu ram disk ws
             ++ recovery_messages last S cpu ram disk)%list.
  split; [exact Hs|]. split; [exact Hm|].
  split; [apply at_most_one_message|].
  split; [|split; [|split; [exact Hl|]]].
  - rewrite <- alert_messages_iff with (cpu := cpu) (ram := ram) (disk := disk) (ws := ws).
    split; intros (a & Ha & Hi); exists a; split; auto.
    + apply in_app_or in Ha as [Ha | Ha]; [exact Ha|].
      unfold recovery_messages in Ha.
      destruct (_ && _ && _); [|destruct Ha].
      destruct Ha as [<- | []]. discriminate.
    + apply in_or_app. now left.
  - rewrite <- recovery_messages_iff with (cpu := cpu) (ram := ram) (disk := disk).
    split; intros (a & Ha & Hi); exists a; split; auto.
    + apply in_app_or in Ha as [Ha | Ha]; [|exact Ha].
      unfold alert_messages in Ha.
      destruct (_ && _); [|destruct Ha].
      destruct Ha as [<- | []]. discriminate.
    + apply in_or_app. now right.
  - intros Hne Hs2.
    destruct (checkSystemHealth_after host' (snd first) _ Hb) as (Hs' & _ & _).
    pose proof (checkSystemHealth_sent host' (snd first) _ Hb) as Hm'.
    cbv zeta in Hm'. fold second in Hs', Hm'.
    rewrite Hs' in Hs2. injection Hs2 as Hs2.
    fold first in Hl. rewrite Hl, Hs2 in Hm'.
    rewrite repeated_status_silent, app_nil_r in Hm'.
    split; [exact Hm'|]. split.
    + rewrite <- (one_alert_iff last S cpu ram disk ws Hne).
      split.
      * intros (a & E & Ha). rewrite E.
        unfold alert_messages, recovery_messages in E.
        destruct (statusChanged last S && negb (severity_eqb S Healthy));
          destruct (statusChanged last S && severity_eqb S Healthy && last_unhealthy last);
          simpl in E; try discriminate; injection E as <-; try reflexivity.
        discriminate.
      * intros E. rewrite E. eexists. split; reflexivity.
    + intros E. rewrite E. apply repeated_status_silent.
Qed.

End SystemAlerts.

Section SystemAlertExamples.
Import JsNumber Eff System HealthSpec Sample.

(** C2, as stated, fails in its last part.  Of three consecutive checks
    with severity warning, the second and the third are two consecutive
    cycles with identical non-healthy severity, and neither sends an
    alert: the only message is the alert of the first check. *)
Lemma repeated_warning_sends_no_alert :
  status_of (fst cycle1) = Some Warning
  /\ status_of (fst cycle2) = Some Warning
  /\ status_of (fst cycle3) = Some Warning
  /\ List.length (sent (log (snd cycle1))) = 1%nat
  /\ sent (log (snd cycle2)) = sent (log (snd cycle1))
  /\ sent (log (snd cycle3)) = sent (log (snd cycle1)).
Proof. vm_compute. repeat split. Qed.

Lemma system_alert_witness :
  previousCpuInfo booted = Some (cpu_reading [cpu0])
  /\ exists S msgs,
      status_of (fst cycle1) = Some S
      /\ sent (log (snd cycle1)) = (sent (log booted) ++ msgs)%list.
Proof.
  split; [reflexivity|].
  destruct (system_alert_on_severity_change
              default_thresholds host_ram90 host_ram90_again booted
              (cpu_reading [cpu0]) eq_refl) as (S & msgs & H1 & H2 & _).
  exists S, msgs. split; assumption.
Defined.

End SystemAlertExamples.

(** ** Probes *)

Section Probes.
Import JsString JsNumber Eff Tests ProbeSpec.

Ltac run_probe :=
  unfold probe_effects, bind, getLastTestResult, insertTestResult,
    sendToAllUsers, when, ret, emit;
  cbn [fst snd tests system_metrics previousCpuInfo log map
       TestRow.status TestRow.is_recovery TestRow.test_type TestRow.target
       status];
  rewrite <- ?app_assoc; cbn [app].

(** C1 fails on the code (one defect with C3): an endpoint whose last
    result is a failure and which now answers 500 gets a row with status
    failed and the recovery flag set. *)
Theorem http_error_status_recorded_as_recovery :
  last_test_status (tests Sample.api_down) (target Sample.api) Http = Some Failed
  /\ status (fst Sample.api_still_down) = Failed
  /\ option_map TestRow.status (written (snd Sample.api_still_down)) = Some Failed
  /\ option_map TestRow.is_recovery (written (snd Sample.api_still_down)) = Some true.
Proof. vm_compute. repeat split. Qed.

(** C3 fails on the code (one defect with C1): for that failed probe the
    text sent is the recovery text, and no failure alert is sent. *)
Theorem http_error_status_sends_recovery_text :
  status (fst Sample.api_still_down) = Failed
  /\ errorMessage (fst Sample.api_still_down) = Some "HTTP 500"
  /\ sent (log (snd Sample.api_still_down))
     = (sent (log Sample.api_down) ++ [HttpRecovery "API" 120])%list.
Proof. vm_compute. repeat split. Qed.

(** C4, as stated, fails for probes: the row of a timed-out TCP probe is
    written before its failure alert is sent. *)
Lemma probe_row_written_before_alert :
  log (snd Sample.db_timeout)
  = [ GetLastTestResult "db.internal:5432" Tcp;
      InsertTestResult
        {| TestRow.test_type := Tcp; TestRow.test_name := "DB";
           TestRow.target := "db.internal:5432"; TestRow.status := Failed;
           TestRow.response_time := 5000;
           TestRow.error_message := Some "Connection timeout";
           TestRow.is_recovery := false |};
      SendToAllUsers (TcpTestFailed "DB" "Connection timeout" 5000) ].
Proof. reflexivity. Qed.

(** C4, amended.  A health check that produces a sample reads the last
    severity, then sends its messages, then writes its row (the
    bootstrapping check does none of these).  A probe, HTTP or TCP, reads
    the last result of its target, then writes its row, then sends its
    messages. *)
Theorem store_write_and_notifier_order
        (th : thresholds) (host : host_reading) (cfg : test_config)
        (fetched : fetch_result) (connected : connect_result)
        (responseTime : Z) (w : world) :
  (let w' := snd (System.checkSystemHealth th host w) in
   (fst (System.checkSystemHealth th host w) = Initializing
    /\ system_metrics w' = system_metrics w /\ log w' = log w)
   \/ (exists row msgs,
         system_metrics w' = row :: system_metrics w
         /\ log w' = (log w ++ GetLastSystemStatus
                        :: map SendToAllUsers msgs
                        ++ [InsertSystemMetric row])%list))
  /\ (exists row msgs,
        probe_effects Http cfg row msgs w
                      (snd (runHttpTest cfg fetched responseTime w)))
  /\ (exists row msgs,
        probe_effects Tcp cfg row msgs w
                      (snd (runTcpTest cfg connected responseTime w))).
Proof.
  split; [|split].
  - cbv zeta. destruct (previousCpuInfo w) as [p|] eqn:H.
    + right.
      pose proof (checkSystemHealth_checked th host w p H) as E. cbv zeta in E.
      rewrite E. eexists. eexists. split; reflexivity.
    + left. rewrite (checkSystemHealth_first th host w H). repeat split.
  - unfold runHttpTest. destruct fetched as [code | error].
    + destruct (code <? 400);
        destruct (last_failed (last_test_status (tests w) (target cfg) Http)) eqn:L;
        eexists; eexists; run_probe; rewrite ?L; cbn [is_failed orb];
        run_probe; repeat split;
        match goal with
        | |- _ = (_ ++ _ :: _ :: map SendToAllUsers ?m)%list =>
            first [ instantiate (1 := []) ; reflexivity
                  | instantiate (1 := [_]) ; reflexivity ]
        end.
    + eexists. exists [HttpTestFailed (name cfg) (Some (fetch_error_message error)) responseTime].
      run_probe. repeat split.
  - unfold runTcpTest. destruct connected as [ | | error].
    + destruct (last_failed (last_test_status (tests w) (target cfg) Tcp)) eqn:L.
      * eexists. exists [TcpRecovery (name cfg) responseTime].
        run_probe. rewrite L. run_probe. repeat split.
      * eexists. exists []. run_probe. rewrite L. run_probe. repeat split.
    + eexists. exists [TcpTestFailed (name cfg) "Connection timeout" responseTime].
      run_probe. repeat split.
    + eexists.
      exists [TcpTestFailed (name cfg) (or_else (err_message error) (err_code error))
                            responseTime].
      run_probe. repeat split.
Qed.

Ltac conjuncts := repeat match goal with |- _ /\ _ => split end.

Ltac settle :=
  cbn [TestRow.status TestRow.is_recovery TestRow.test_type TestRow.target
       status fst snd];
  first
    [ reflexivity
    | solve [intuition congruence]
    | solve [let X := fresh in intros X; discriminate X]
    | solve [intros _; eexists; reflexivity]
    | solve [split;
             [ let X := fresh in
               intros X; try discriminate X; split;
               [reflexivity | eexists; reflexivity]
             | let X := fresh in
               intros [X _]; first [reflexivity | discriminate X] ]]
    | solve [split;
             [ let X := fresh in
               intros X; try discriminate X; eexists; split;
               [reflexivity | assumption]
             | let X := fresh in
               intros (? & X & ?); first [reflexivity | injection X as <-; lia] ]]
    | solve [split;
             [ let X := fresh in intros X; discriminate X
             | let X := fresh in intros (? & X & ?); injection X as <-; lia ]]
    | solve [split;
             [ let X := fresh in intros X; discriminate X
             | let X := fresh in intros [_ (? & X)]; discriminate X ]]
    | solve [split;
             [ let X := fresh in intros X; discriminate X
             | let X := fresh in intros (? & X & _); discriminate X ]]
    | solve [let X := fresh in
             intros ? X; injection X as <-;
             match goal with
             | |- context [?x <? 400] =>
                 destruct (Z.ltb_spec x 400); first [reflexivity | lia]
             | _ => reflexivity
             end]
    | solve [let X := fresh in
             intros ? X; first [discriminate X | injection X as <-; reflexivity]] ].

(** A TCP probe sets the recovery flag exactly when the last result of
    its target was a failure and it connected; it sends a failure alert
    whenever it fails, and on success the recovery text exactly when the
    flag is set. *)
Theorem runTcpTest_recovery_and_alerts
        (cfg : test_config) (connected : connect_result)
        (responseTime : Z) (w : world) :
  exists row msgs,
    probe_effects Tcp cfg row msgs w (snd (runTcpTest cfg connected responseTime w))
    /\ TestRow.test_type row = Tcp
    /\ TestRow.target row = target cfg
    /\ TestRow.status row = status (fst (runTcpTest cfg connected responseTime w))
    /\ (TestRow.status row = Success <-> connected = Connected)
    /\ (TestRow.is_recovery row = true
        <-> last_test_status (tests w) (target cfg) Tcp = Some Failed
            /\ TestRow.status row = Success)
    /\ (TestRow.status row = Failed ->
        exists text, msgs = [TcpTestFailed (name cfg) text responseTime])
    /\ (TestRow.status row = Success ->
        msgs = if TestRow.is_recovery row
               then [TcpRecovery (name cfg) responseTime] else []).
Proof.
  unfold runTcpTest. destruct connected as [ | | error].
  - destruct (last_test_status (tests w) (target cfg) Tcp) as [[]|] eqn:L.
    + eexists. exists []. run_probe; rewrite ?L; cbn [last_failed is_failed orb]; run_probe.
      conjuncts; first [settle].
    + eexists. exists [TcpRecovery (name cfg) responseTime].
      run_probe; rewrite ?L; cbn [last_failed is_failed orb]; run_probe.
      conjuncts; first [settle].
    + eexists. exists []. run_probe; rewrite ?L; cbn [last_failed is_failed orb]; run_probe.
      conjuncts; first [settle].
  - eexists. exists [TcpTestFailed (name cfg) "Connection timeout" responseTime].
    run_probe; rewrite ?L; cbn [last_failed is_failed orb]; run_probe.
      conjuncts; first [settle].
  - eexists.
    exists [TcpTestFailed (name cfg) (or_else (err_message error) (err_code error))
                          responseTime].
    run_probe; rewrite ?L; cbn [last_failed is_failed orb]; run_probe.
      conjuncts; first [settle].
Qed.

(** An HTTP probe sets the recovery flag exactly when the last result of
    its target was a failure and [fetch] answered, whatever the status
    code.  A rejected [fetch] sends a failure alert; an answer sends the
    recovery text when the flag is set, and otherwise a failure alert for
    a code of 400 or more and nothing below 400. *)
Theorem runHttpTest_recovery_and_alerts
        (cfg : test_config) (fetched : fetch_result)
        (responseTime : Z) (w : world) :
  exists row msgs,
    probe_effects Http cfg row msgs w (snd (runHttpTest cfg fetched responseTime w))
    /\ TestRow.test_type row = Http
    /\ TestRow.target row = target cfg
    /\ TestRow.status row = status (fst (runHttpTest cfg fetched responseTime w))
    /\ (TestRow.status row = Success
        <-> exists code, fetched = Responded code /\ code < 400)
    /\ (TestRow.is_recovery row = true
        <-> last_test_status (tests w) (target cfg) Http = Some Failed
            /\ exists code, fetched = Responded code)
    /\ (forall error, fetched = Rejected error ->
        msgs = [HttpTestFailed (name cfg) (Some (fetch_error_message error))
                               responseTime])
    /\ (forall code, fetched = Responded code ->
        msgs = if TestRow.is_recovery row
               then [HttpRecovery (name cfg) responseTime]
               else if code <? 400 then []
                    else [HttpTestFailed (name cfg) (Some ("HTTP " ++ show_Z code))
                                         responseTime]).
Proof.
  unfold runHttpTest. destruct fetched as [code | error].
  - destruct (Z.ltb_spec code 400) as [Hc | Hc];
      destruct (last_test_status (tests w) (target cfg) Http) as [[]|] eqn:L.
    + eexists. exists []. run_probe; rewrite ?L; cbn [last_failed is_failed orb]; run_probe.
      conjuncts; first [settle].
    + eexists. exists [HttpRecovery (name cfg) responseTime].
      run_probe; rewrite ?L; cbn [last_failed is_failed orb]; run_probe.
      conjuncts; first [settle].
    + eexists. exists []. run_probe; rewrite ?L; cbn [last_failed is_failed orb]; run_probe.
      conjuncts; first [settle].
    + eexists.
      exists [HttpTestFailed (name cfg) (Some ("HTTP " ++ show_Z code)) responseTime].
      run_probe; rewrite ?L; cbn [last_failed is_failed orb]; run_probe.
      conjuncts; first [settle].
    + eexists. exists [HttpRecovery (name cfg) responseTime].
      run_probe; rewrite ?L; cbn [last_failed is_failed orb]; run_probe.
      conjuncts; first [settle].
    + eexists.
      exists [HttpTestFailed (name cfg) (Some ("HTTP " ++ show_Z code)) responseTime].
      run_probe; rewrite ?L; cbn [last_failed is_failed orb]; run_probe.
      conjuncts; first [settle].
  - eexists.
    exists [HttpTestFailed (name cfg) (Some (fetch_error_message error)) responseTime].
    run_probe; rewrite ?L; cbn [last_failed is_failed orb]; run_probe.
      conjuncts; first [settle].
Qed.

Lemma runTcpTest_failed_step cfg f ms w :
  f <> Connected ->
  exists row text,
    tests (snd (runTcpTest cfg f ms w)) = row :: tests w
    /\ TestRow.test_type row = Tcp
    /\ TestRow.target row = target cfg
    /\ TestRow.status row = Failed
    /\ TestRow.is_recovery row = false
    /\ sent (log (snd (runTcpTest cfg f ms w)))
       = (sent (log w) ++ [TcpTestFailed (name cfg) text ms])%list.
Proof.
  intros Hf. unfold runTcpTest. destruct f as [ | | error]; [contradiction| |];
    eexists; eexists; run_probe;
    (split; [reflexivity|]); cbn [TestRow.test_type TestRow.target TestRow.status
                                  TestRow.is_recovery];
    repeat (split; [reflexivity|]);
    rewrite sent_app; reflexivity.
Qed.

Lemma runTcpTest_recovered_step cfg ms w row rest :
  tests w = row :: rest ->
  TestRow.test_type row = Tcp -> TestRow.target row = target cfg ->
  TestRow.status row = Failed ->
  exists row',
    tests (snd (runTcpTest cfg Connected ms w)) = row' :: tests w
    /\ TestRow.status row' = Success
    /\ TestRow.is_recovery row' = true
    /\ sent (log (snd (runTcpTest cfg Connected ms w)))
       = (sent (log w) ++ [TcpRecovery (name cfg) ms])%list.
Proof.
  intros Hw Hk Ht Hs.
  assert (L : last_test_status (tests w) (target cfg) Tcp = Some Failed).
  { unfold last_test_status. rewrite Hw. cbn [find].
    rewrite Ht, Hk, String.eqb_refl. cbn [kind_eqb andb option_map]. now rewrite Hs. }
  unfold runTcpTest. eexists. run_probe. rewrite L. cbn [last_failed]. run_probe.
  split; [reflexivity|]. cbn [TestRow.status TestRow.is_recovery].
  split; [reflexivity|]. split; [reflexivity|].
  rewrite sent_app. reflexivity.
Qed.

(** A TCP target that fails three cycles in a row and then connects,
    whatever the target, the kind of each failure, the response times
    and the rows already stored: the four cycles write four rows, failed
    three times and then success, with the recovery flag on the fourth
    only, and send one failure alert per failing cycle followed by one
    recovery text. *)
Theorem tcp_three_failures_then_recovery
        (cfg : test_config) (f1 f2 f3 : connect_result)
        (ms1 ms2 ms3 ms4 : Z) (w : world) :
  f1 <> Connected -> f2 <> Connected -> f3 <> Connected ->
  let w1 := snd (runTcpTest cfg f1 ms1 w) in
  let w2 := snd (runTcpTest cfg f2 ms2 w1) in
  let w3 := snd (runTcpTest cfg f3 ms3 w2) in
  let w4 := snd (runTcpTest cfg Connected ms4 w3) in
  exists r1 r2 r3 r4 t1 t2 t3,
    tests w4 = r4 :: r3 :: r2 :: r1 :: tests w
    /\ map TestRow.status [r1; r2; r3; r4] = [Failed; Failed; Failed; Success]
    /\ map TestRow.is_recovery [r1; r2; r3; r4] = [false; false; false; true]
    /\ sent (log w4)
       = (sent (log w)
          ++ [ TcpTestFailed (name cfg) t1 ms1;
               TcpTestFailed (name cfg) t2 ms2;
               TcpTestFailed (name cfg) t3 ms3;
               TcpRecovery (name cfg) ms4 ])%list.
Proof.
  intros H1 H2 H3 w1 w2 w3 w4.
  destruct (runTcpTest_failed_step cfg f1 ms1 w H1)
    as (r1 & t1 & T1 & _ & _ & S1 & R1 & M1). fold w1 in T1, M1.
  destruct (runTcpTest_failed_step cfg f2 ms2 w1 H2)
    as (r2 & t2 & T2 & _ & _ & S2 & R2 & M2). fold w2 in T2, M2.
  destruct (runTcpTest_failed_step cfg f3 ms3 w2 H3)
    as (r3 & t3 & T3 & K3 & G3 & S3 & R3 & M3). fold w3 in T3, M3.
  destruct (runTcpTest_recovered_step cfg ms4 w3 r3 (tests w2) T3 K3 G3 S3)
    as (r4 & T4 & S4 & R4 & M4). fold w4 in T4, M4.
  exists r1, r2, r3, r4, t1, t2, t3.
  split; [now rewrite T4, T3, T2, T1|].
  cbn [map]. rewrite S1, S2, S3, S4, R1, R2, R3, R4.
  split; [reflexivity|]. split; [reflexivity|].
  rewrite M4, M3, M2, M1, <- !app_assoc. reflexivity.
Qed.

(** The database port times out three cycles in a row, then answers. *)
Lemma tcp_three_failures_then_recovery_witness :
  sent (log (snd Sample.db_recovered))
  = [ TcpTestFailed "DB" "Connection timeout" 5000;
      TcpTestFailed "DB" "Connection timeout" 5000;
      TcpTestFailed "DB" "Connection timeout" 5000;
      TcpRecovery "DB" 12 ]
  /\ map TestRow.is_recovery (rev (tests (snd Sample.db_recovered)))
     = [false; false; false; true].
Proof.
  destruct (tcp_three_failures_then_recovery Sample.db TimedOut TimedOut TimedOut
              5000 5000 5000 12 empty_world)
    as (r1 & r2 & r3 & r4 & t1 & t2 & t3 & T & _ & R & _);
    try discriminate.
  split; [reflexivity|].
  change (tests (snd Sample.db_recovered))
    with (tests (snd (runTcpTest Sample.db Connected 12
                  (snd (runTcpTest Sample.db TimedOut 5000
                     (snd (runTcpTest Sample.db TimedOut 5000
                        (snd (runTcpTest Sample.db TimedOut 5000 empty_world)))))))))
    in *.
  rewrite T. cbn [rev tests empty_world app map]. cbn [map] in R.
  injection R as E1 E2 E3 E4. now rewrite E1, E2, E3, E4.
Defined.

Example tcp_endpoint_db :
  tcp_endpoint "db.internal:5432" = ("db.internal", of_Z 5432).
Proof. reflexivity. Qed.

End Probes.

(** ** Reading numbers back *)

Section ReadingNumbers.
Import JsString JsNumber TextSpec.

Lemma all_chars_app f a b : all_chars f (a ++ b) = all_chars f a && all_chars f b.
Proof.
  induction a as [|c a IH]; simpl; [reflexivity|].
  now rewrite IH, andb_assoc.
Qed.

Lemma all_chars_weaken (f g : ascii -> bool) s :
  (forall c, f c = true -> g c = true) ->
  all_chars f s = true -> all_chars g s = true.
Proof.
  intros Hfg. induction s as [|c s IH]; simpl; [reflexivity|].
  intros H. apply andb_true_iff in H as [Hc Hs].
  now rewrite (Hfg c Hc), IH.
Qed.

Lemma all_chars_mem f c s :
  all_chars f s = true -> f c = false -> mem c s = false.
Proof.
  intros H Hc. induction s as [|a s IH]; simpl in *; [reflexivity|].
  apply andb_true_iff in H as [Ha Hs]. rewrite (IH Hs), orb_false_r.
  destruct (Ascii.eqb_spec a c) as [->|]; [congruence | reflexivity].
Qed.

Lemma string_of_uint_chars d :
  all_chars sign_or_digit (NilEmpty.string_of_uint d) = true.
Proof. induction d; simpl; auto. Qed.

Lemma show_Z_chars z : all_chars sign_or_digit (show_Z z) = true.
Proof.
  unfold show_Z. destruct z; simpl; try reflexivity;
    rewrite ?string_of_uint_chars; reflexivity.
Qed.

Lemma sign_or_digit_not_ws c : sign_or_digit c = true -> negb (is_ws c) = true.
Proof.
  destruct c as [[] [] [] [] [] [] [] []]; vm_compute; congruence.
Qed.

Lemma show_Z_no_ws z : no_ws (show_Z z) = true.
Proof.
  apply all_chars_weaken with (f := sign_or_digit);
    [exact sign_or_digit_not_ws | apply show_Z_chars].
Qed.

Lemma show_Z_truthy z : truthy (show_Z z) = true.
Proof.
  unfold show_Z. destruct z as [|p|p]; simpl; try reflexivity.
  destruct (Pos.to_uint p) eqn:E; simpl; try reflexivity.
  exfalso. pose proof (DecimalPos.Unsigned.to_uint_nonnil p). contradiction.
Qed.

Lemma digits_string_of_uint d acc :
  digits digit_of 10 (Some acc) (NilEmpty.string_of_uint d) = Some (uint_value d acc).
Proof.
  revert acc. induction d; intros acc; [reflexivity| ..];
    cbn [NilEmpty.string_of_uint digits];
    match goal with
    | |- context [digit_of ?c] =>
        let v := eval vm_compute in (digit_of c) in change (digit_of c) with v
    end;
    cbn iota; rewrite IHd; cbn [uint_value]; rewrite ?Z.add_0_r; reflexivity.
Qed.

Lemma uint_value_of_uint_acc d p :
  Z.pos (Pos.of_uint_acc d p) = uint_value d (Z.pos p).
Proof.
  revert p. induction d; intros p; [reflexivity| ..];
    cbn [Pos.of_uint_acc uint_value]; rewrite IHd; apply f_equal; lia.
Qed.

Lemma uint_value_of_uint d : Z.of_N (Pos.of_uint d) = uint_value d 0.
Proof.
  induction d; cbn [Pos.of_uint uint_value Z.of_N];
    try reflexivity; try exact IHd;
    rewrite uint_value_of_uint_acc; reflexivity.
Qed.

Lemma parse_magnitude_string_of_uint d :
  d <> Decimal.Nil ->
  parse_magnitude (NilEmpty.string_of_uint d) = Some (Z.of_uint d).
Proof.
  intros Hd. unfold Z.of_uint. rewrite uint_value_of_uint.
  destruct d as [|d|d|d|d|d|d|d|d|d|d]; try contradiction;
    try (simpl; rewrite digits_string_of_uint; reflexivity).
  destruct d; simpl; try reflexivity; rewrite digits_string_of_uint; reflexivity.
Qed.

Lemma parseInt_string_of_uint d :
  d <> Decimal.Nil ->
  parseInt (NilEmpty.string_of_uint d) = of_Z (Z.of_uint d)
  /\ parseInt (String "-" (NilEmpty.string_of_uint d)) = of_Z (- Z.of_uint d).
Proof.
  intros Hd. pose proof (parse_magnitude_string_of_uint d Hd) as P. split.
  - unfold parseInt.
    destruct d as [|d|d|d|d|d|d|d|d|d|d]; try contradiction;
      cbn [NilEmpty.string_of_uint] in *;
      match goal with
      | |- context [trimStart (String ?c ?r)] =>
          change (trimStart (String c r)) with (String c r)
      end;
      cbn iota beta zeta; rewrite P; reflexivity.
  - unfold parseInt.
    change (trimStart (String "-" (NilEmpty.string_of_uint d)))
      with (String "-" (NilEmpty.string_of_uint d)).
    cbn iota beta zeta. rewrite P. reflexivity.
Qed.

(** [parseInt] reads back every printed integer. *)
Lemma parseInt_show_Z z : parseInt (show_Z z) = of_Z z.
Proof.
  unfold show_Z.
  destruct z as [|p|p]; [reflexivity | |];
    cbn [Z.to_int NilEmpty.string_of_int];
    destruct (parseInt_string_of_uint (Pos.to_uint p)
                (DecimalPos.Unsigned.to_uint_nonnil p)) as [Hp Hn];
    [rewrite Hp | rewrite Hn];
    unfold Z.of_uint; rewrite DecimalPos.Unsigned.of_to; reflexivity.
Qed.

End ReadingNumbers.

(** ** [getDiskUsage] on a line of [df] *)

Section ReadingDf.
Import JsString JsNumber TextSpec System.

Lemma truthy_app_r a b : truthy b = true -> truthy (a ++ b) = true.
Proof. destruct a; simpl; auto. Qed.

Lemma truthy_app_l a b : truthy a = true -> truthy (a ++ b) = true.
Proof. destruct a; simpl; [discriminate | reflexivity]. Qed.

Lemma trimEnd_only_ws t : only_ws t = true -> trimEnd t = "".
Proof.
  induction t as [|c t IH]; simpl; [reflexivity|].
  intros H. apply andb_true_iff in H as [Hc Ht].
  now rewrite (IH Ht), Hc.
Qed.

Lemma trimEnd_field_ws m t :
  no_ws m = true -> only_ws t = true -> trimEnd (m ++ t) = m.
Proof.
  intros Hm Ht. induction m as [|c m IH]; simpl.
  - now apply trimEnd_only_ws.
  - simpl in Hm. apply andb_true_iff in Hm as [Hc Hm].
    rewrite (IH Hm). apply negb_true_iff in Hc. rewrite Hc.
    destruct m; reflexivity.
Qed.

Lemma trimEnd_app_keep a b :
  truthy (trimEnd b) = true -> trimEnd (a ++ b) = a ++ trimEnd b.
Proof.
  intros H. induction a as [|c a IH]; simpl; [reflexivity|].
  rewrite IH. destruct (a ++ trimEnd b) eqn:E; [|reflexivity].
  assert (T : truthy (a ++ trimEnd b) = true) by now apply truthy_app_r.
  rewrite E in T. discriminate.
Qed.

Lemma truthy_trimEnd_app a b :
  truthy (trimEnd b) = true -> truthy (trimEnd (a ++ b)) = true.
Proof.
  intros H. rewrite (trimEnd_app_keep a b H). now apply truthy_app_r.
Qed.

Lemma trimStart_field a b : field a = true -> trimStart (a ++ b) = a ++ b.
Proof.
  unfold field, no_ws. destruct a as [|c a]; simpl; [discriminate|].
  intros H. apply andb_true_iff in H as [Hc _].
  apply negb_true_iff in Hc. now rewrite Hc.
Qed.

(** The pieces of a text that starts with a field. *)
Lemma split_ws_true_false s :
  (match s with String c _ => negb (is_ws c) | "" => false end) = true ->
  split_ws_from true s = split_ws_from false s.
Proof.
  destruct s as [|c s]; simpl; [discriminate|].
  intros H. apply negb_true_iff in H. now rewrite H.
Qed.

Lemma split_ws_skip_gap g rest :
  only_ws g = true ->
  (match rest with String c _ => negb (is_ws c) | "" => false end) = true ->
  split_ws_from true (g ++ rest) = split_ws_from false rest.
Proof.
  intros Hg Hr. induction g as [|c g IH]; simpl.
  - now apply split_ws_true_false.
  - simpl in Hg. apply andb_true_iff in Hg as [Hc Hg].
    rewrite Hc. now apply IH.
Qed.

Lemma split_ws_field_gap tok g rest :
  no_ws tok = true -> gap g = true ->
  (match rest with String c _ => negb (is_ws c) | "" => false end) = true ->
  split_ws_from false (tok ++ g ++ rest) = tok :: split_ws_from false rest.
Proof.
  intros Ht Hg Hr. induction tok as [|c tok IH]; simpl.
  - unfold gap in Hg. apply andb_true_iff in Hg as [Hne Hws].
    destruct g as [|w g]; [discriminate|]. simpl in *.
    apply andb_true_iff in Hws as [Hw Hws]. rewrite Hw.
    now rewrite (split_ws_skip_gap g rest Hws Hr).
  - simpl in Ht. apply andb_true_iff in Ht as [Hc Ht].
    apply negb_true_iff in Hc. rewrite Hc, (IH Ht). reflexivity.
Qed.

Lemma split_ws_last tok : no_ws tok = true -> split_ws_from false tok = [tok].
Proof.
  induction tok as [|c tok IH]; simpl; [reflexivity|].
  intros H. apply andb_true_iff in H as [Hc Ht].
  apply negb_true_iff in Hc. now rewrite Hc, (IH Ht).
Qed.

Lemma starts_field_app a b :
  field a = true ->
  (match a ++ b with String c _ => negb (is_ws c) | "" => false end) = true.
Proof.
  unfold field, no_ws. destruct a as [|c a]; simpl; [discriminate|].
  intros H. now apply andb_true_iff in H as [H _].
Qed.

Lemma remove_first_suffix c s t :
  mem c s = false -> remove_first c (s ++ String c t) = s ++ t.
Proof.
  induction s as [|a s IH]; simpl; intros H.
  - now rewrite Ascii.eqb_refl.
  - apply orb_false_iff in H as [Ha Hs]. now rewrite Ha, IH.
Qed.

Lemma append_empty_r s : s ++ "" = s.
Proof. induction s as [|c s IH]; simpl; [reflexivity | now rewrite IH]. Qed.

Lemma printed_field z unit :
  negb (is_ws unit) = true -> field (show_Z z ++ String unit "") = true.
Proof.
  intros Hu. unfold field, no_ws.
  rewrite truthy_app_l by apply show_Z_truthy.
  rewrite all_chars_app. fold (no_ws (show_Z z)). rewrite show_Z_no_ws.
  simpl. now rewrite Hu.
Qed.

Lemma read_printed z unit :
  sign_or_digit unit = false ->
  parseInt (remove_first unit (show_Z z ++ String unit "")) = of_Z z.
Proof.
  intros Hu.
  rewrite remove_first_suffix
    by (apply all_chars_mem with (f := sign_or_digit);
        [apply show_Z_chars | exact Hu]).
  rewrite append_empty_r. apply parseInt_show_Z.
Qed.

Lemma trimStart_skip g rest :
  only_ws g = true -> trimStart (g ++ rest) = trimStart rest.
Proof.
  intros Hg. induction g as [|c g IH]; simpl; [reflexivity|].
  simpl in Hg. apply andb_true_iff in Hg as [Hc Hg]. rewrite Hc. now apply IH.
Qed.

(** The fields of a [df] line, once trimmed and split. *)
Lemma df_line_fields r sp :
  field (filesystem r) = true -> field (mounted_on r) = true ->
  spacing_ok sp = true ->
  split_ws (trim (df_line r sp)) =
  [ filesystem r; show_Z (size_gb r) ++ "G"; show_Z (used_gb r) ++ "G";
    show_Z (avail_gb r) ++ "G"; show_Z (use_percent r) ++ "%"; mounted_on r ].
Proof.
  intros Hf Hm Hsp. unfold spacing_ok in Hsp.
  repeat (apply andb_true_iff in Hsp as [Hsp ?]).
  rename Hsp into Hl.
  match goal with H : only_ws (trailing sp) = true |- _ => rename H into Ht end.
  unfold df_line, trim.
  rewrite trimStart_skip by exact Hl.
  rewrite trimStart_field by exact Hf.
  assert (Hm' : no_ws (mounted_on r) = true)
    by (unfold field in Hm; now apply andb_true_iff in Hm as [_ Hm]).
  assert (Hf' : no_ws (filesystem r) = true)
    by (unfold field in Hf; now apply andb_true_iff in Hf as [_ Hf]).
  assert (Hlast : trimEnd (mounted_on r ++ trailing sp) = mounted_on r)
    by now apply trimEnd_field_ws.
  assert (Hk : truthy (trimEnd (mounted_on r ++ trailing sp)) = true).
  { rewrite Hlast. unfold field in Hm. now apply andb_true_iff in Hm as [Hm _]. }
  repeat (rewrite trimEnd_app_keep
            by (repeat (first [exact Hk | apply truthy_trimEnd_app]))).
  rewrite Hlast. unfold split_ws.
  assert (HG : negb (is_ws "G") = true) by reflexivity.
  assert (HP : negb (is_ws "%") = true) by reflexivity.
  pose proof (printed_field (size_gb r) "G" HG) as F1.
  pose proof (printed_field (used_gb r) "G" HG) as F2.
  pose proof (printed_field (avail_gb r) "G" HG) as F3.
  pose proof (printed_field (use_percent r) "%" HP) as F4.
  assert (N : forall a, field a = true -> no_ws a = true)
    by (intros a Ha; unfold field in Ha; now apply andb_true_iff in Ha as [_ Ha]).
  rewrite split_ws_field_gap by (auto using starts_field_app).
  rewrite split_ws_field_gap by (auto using starts_field_app).
  rewrite split_ws_field_gap by (auto using starts_field_app).
  rewrite split_ws_field_gap by (auto using starts_field_app).
  rewrite split_ws_field_gap
    by (auto; rewrite <- (append_empty_r (mounted_on r)); now apply starts_field_app).
  now rewrite split_ws_last.
Qed.

(** [getDiskUsage] reads a line of [df -BG] back: whatever the device and
    the mount point (fields without whitespace) and whatever the
    whitespace before, between and after the columns, each gap of its own
    width, it returns the four numbers that were printed. *)
Theorem getDiskUsage_reads_df_line (r : df_row) (sp : df_spacing) :
  field (filesystem r) = true -> field (mounted_on r) = true ->
  spacing_ok sp = true ->
  getDiskUsage (ExecOk (df_line r sp))
  = Some {| totalGB := of_Z (size_gb r); usedGB := of_Z (used_gb r);
            availGB := of_Z (avail_gb r);
            disk_usagePercent := of_Z (use_percent r) |}.
Proof.
  intros Hf Hm Hs. unfold getDiskUsage.
  rewrite (df_line_fields r sp Hf Hm Hs).
  cbn [List.length Nat.leb nth].
  now rewrite !read_printed by reflexivity.
Qed.

End ReadingDf.

Section ReadingDfExamples.
Import JsString JsNumber TextSpec System MoreSamples.

(** A line as [df] prints it, the columns right-aligned. *)
Lemma getDiskUsage_reads_df_line_witness :
  df_line root_disk aligned
  = "/dev/sda1        50G   20G   28G  42% /" ++ newline
  /\ getDiskUsage (ExecOk ("/dev/sda1        50G   20G   28G  42% /" ++ newline))
     = Some {| totalGB := of_Z 50; usedGB := of_Z 20; availGB := of_Z 28;
               disk_usagePercent := of_Z 42 |}.
Proof.
  split; [reflexivity|].
  exact (getDiskUsage_reads_df_line root_disk aligned eq_refl eq_refl eq_refl).
Defined.

End ReadingDfExamples.

(** ** Ports, thresholds and memory *)

Section PortsThresholdsMemory.
Import JsString JsNumber TextSpec Tests System HealthSpec.



Lemma parseInt_or_nonzero v d : d <> 0 -> parseInt_or v d <> 0.
Proof.
  intros Hd. unfold parseInt_or. destruct v as [s|]; [|exact Hd].
  destruct (parseInt s) as [q| | |]; try exact Hd.
  destruct (Z.eqb_spec (Qfloor q) 0); assumption.
Qed.


Lemma round_unit_interval (q : Q) :
  (0 <= q)%Q -> (q <= 1)%Q ->
  0 <= Qfloor (q * inject_Z 100 + (1 # 2)) <= 100.
Proof.
  intros H0 H1. split.
  - change 0 with (Qfloor 0). apply Qfloor_resp_le.
    change (inject_Z 100) with 100%Q. nra.
  - rewrite <- (Qfloor_Z 100).
    apply Z.lt_succ_r. rewrite Qfloor_Z.
    assert (L : (inject_Z (Qfloor (q * inject_Z 100 + (1 # 2))) < inject_Z 101)%Q).
    { apply Qle_lt_trans with (q * inject_Z 100 + (1 # 2))%Q; [apply Qfloor_le|].
      change (inject_Z 100) with 100%Q. change (inject_Z 101) with 101%Q. nra. }
    rewrite <- Zlt_Qlt in L. lia.
Qed.

Lemma sign_inject_Z z : sign (inject_Z z) = Z.sgn z.
Proof. reflexivity. Qed.

Lemma megabytes (b : Z) :
  round (div (div (of_Z b) (of_Z 1024)) (of_Z 1024))
  = of_Z (Qfloor (inject_Z b / inject_Z 1024 / inject_Z 1024 + (1 # 2))).
Proof. reflexivity. Qed.

Lemma megabytes_mono (a b : Z) :
  a <= b ->
  Qfloor (inject_Z a / inject_Z 1024 / inject_Z 1024 + (1 # 2))
  <= Qfloor (inject_Z b / inject_Z 1024 / inject_Z 1024 + (1 # 2)).
Proof.
  intros H. apply Qfloor_resp_le. rewrite Zle_Qle in H.
  apply Qplus_le_l.
  unfold Qdiv. apply Qmult_le_compat_r; [|discriminate].
  apply Qmult_le_compat_r; [exact H | discriminate].
Qed.

(** For a host with memory ([0 <= free <= total], [total > 0]) the RAM
    percentage is an integer between 0 and 100, 100 when nothing is free and
    0 when everything is, and the megabytes used are between 0 and the
    total megabytes.  With [totalmem] 0 the percentage is NaN and the RAM
    check leaves the severity healthy and adds no warning. *)
Theorem getRamUsage_bounds :
  (forall total free, 0 < total -> 0 <= free <= total ->
     exists p t u,
       ram_usagePercent (getRamUsage total free) = of_Z p
       /\ 0 <= p <= 100
       /\ (free = 0 -> p = 100)
       /\ (free = total -> p = 0)
       /\ totalMemMB (getRamUsage total free) = of_Z t
       /\ usedMemMB (getRamUsage total free) = of_Z u
       /\ 0 <= u <= t)
  /\ (forall th,
        ram_usagePercent (getRamUsage 0 0) = NaN
        /\ check_ram th (getRamUsage 0 0) (Healthy, []) = (Healthy, [])).
Proof.
  split.
  - intros total free Ht Hf.
    set (q := (inject_Z (total - free) / inject_Z total)%Q).
    assert (Hq : ram_usagePercent (getRamUsage total free)
                 = of_Z (Qfloor (q * inject_Z 100 + (1 # 2)))).
    { unfold getRamUsage. cbn [ram_usagePercent]. unfold div, of_Z.
      rewrite sign_inject_Z.
      destruct (Z.eqb_spec (Z.sgn total) 0) as [E|_]; [lia|]. reflexivity. }
    assert (Tpos : (0 < inject_Z total)%Q) by (rewrite <- (Zlt_Qlt 0); lia).
    assert (Q0 : (0 <= q)%Q).
    { unfold q. apply Qle_shift_div_l; [exact Tpos|].
      rewrite Qmult_0_l. rewrite <- (Zle_Qle 0). lia. }
    assert (Q1 : (q <= 1)%Q).
    { unfold q. apply Qle_shift_div_r; [exact Tpos|].
      rewrite Qmult_1_l. rewrite <- Zle_Qle. lia. }
    exists (Qfloor (q * inject_Z 100 + (1 # 2))),
           (Qfloor (inject_Z total / inject_Z 1024 / inject_Z 1024 + (1 # 2))),
           (Qfloor (inject_Z (total - free) / inject_Z 1024 / inject_Z 1024 + (1 # 2))).
    split; [exact Hq|]. split; [now apply round_unit_interval|].
    split; [|split; [|split; [|split]]].
    + intros ->.
      assert (E : (q == 1)%Q).
      { unfold q. rewrite Z.sub_0_r. field. lra. }
      rewrite E. reflexivity.
    + intros ->.
      assert (E : (q == 0)%Q).
      { unfold q. rewrite Z.sub_diag. unfold Qdiv. apply Qmult_0_l. }
      rewrite E. reflexivity.
    + unfold getRamUsage. cbn [totalMemMB]. apply megabytes.
    + unfold getRamUsage. cbn [usedMemMB]. apply megabytes.
    + split.
      * change 0 with (Qfloor (inject_Z 0 / inject_Z 1024 / inject_Z 1024 + (1 # 2))).
        apply megabytes_mono. lia.
      * apply megabytes_mono. lia.
  - intros th. split; reflexivity.
Qed.

End PortsThresholdsMemory.

(** ** Test cycles *)

Section TestCycles.
Import JsString JsNumber Eff Tests Cycle ProbeSpec CycleSpec.

Ltac run_probe' :=
  unfold bind, getLastTestResult, insertTestResult, sendToAllUsers, when, ret, emit;
  cbn [fst snd tests system_metrics previousCpuInfo log].

Lemma sent_snoc l e :
  sent (l ++ [e]) = (sent l ++ match e with SendToAllUsers m => [m] | _ => [] end)%list.
Proof.
  induction l as [|a l IH]; simpl; [destruct e; reflexivity|].
  destruct a; simpl; now rewrite IH.
Qed.

Ltac wrote_fin :=
  first [ solve [repeat split]
        | solve [rewrite !sent_snoc, !length_app; cbn; repeat split; lia] ].

(** One probe, as a cycle sees it. *)
Lemma runHttpTest_wrote cfg fetched ms w :
  exists row,
    wrote [row] w (snd (runHttpTest cfg fetched ms w))
    /\ row_key row = test_key Http cfg
    /\ result_name (fst (runHttpTest cfg fetched ms w)) = name cfg
    /\ status (fst (runHttpTest cfg fetched ms w)) = TestRow.status row.
Proof.
  unfold runHttpTest, wrote. destruct fetched as [code | error].
  - destruct (code <? 400);
      destruct (last_failed (last_test_status (tests w) (target cfg) Http)) eqn:L;
      eexists; run_probe'; rewrite ?L; cbn [is_failed orb]; run_probe';
      (split; [split; [reflexivity|]|]); first [wrote_fin].
  - eexists; run_probe'.
    (split; [split; [reflexivity|]|]); first [wrote_fin].
Qed.

Lemma runTcpTest_wrote cfg connected ms w :
  exists row,
    wrote [row] w (snd (runTcpTest cfg connected ms w))
    /\ row_key row = test_key Tcp cfg
    /\ result_name (fst (runTcpTest cfg connected ms w)) = name cfg
    /\ status (fst (runTcpTest cfg connected ms w)) = TestRow.status row.
Proof.
  unfold runTcpTest, wrote. destruct connected as [ | | error].
  - destruct (last_failed (last_test_status (tests w) (target cfg) Tcp)) eqn:L;
      eexists; run_probe'; rewrite ?L; run_probe';
      (split; [split; [reflexivity|]|]); first [wrote_fin].
  - eexists; run_probe'.
    (split; [split; [reflexivity|]|]); first [wrote_fin].
  - eexists; run_probe'.
    (split; [split; [reflexivity|]|]); first [wrote_fin].
Qed.

Lemma wrote_app rows1 rows2 w w1 w2 :
  wrote rows1 w w1 -> wrote rows2 w1 w2 -> wrote (rows1 ++ rows2) w w2.
Proof.
  intros (T1 & S1 & M1 & P1) (T2 & S2 & M2 & P2). unfold wrote.
  rewrite T2, T1, S2, S1, M2, M1, P2, P1, rev_app_distr, filter_app, length_app.
  repeat split; [now rewrite app_assoc | lia].
Qed.

Lemma wrote_nil w : wrote [] w w.
Proof. unfold wrote. simpl. repeat split. lia. Qed.

Lemma row_key_outcome row k cfg :
  row_key row = test_key k cfg ->
  row_outcome row = (k, name cfg, TestRow.status row).
Proof.
  unfold row_key, test_key, row_outcome. intros E.
  injection E as E1 E2 _. now rewrite E1, E2.
Qed.

Lemma run_http_tests_wrote net httpTests :
  forall i results w,
  exists rows,
    wrote rows w (snd (run_http_tests httpTests i net results w))
    /\ map row_key rows = map (test_key Http) httpTests
    /\ map result_outcome (fst (run_http_tests httpTests i net results w))
       = (map result_outcome results ++ map row_outcome rows)%list.
Proof.
  induction httpTests as [|cfg rest IH]; intros i results w.
  - exists []. simpl. split; [apply wrote_nil|]. now rewrite app_nil_r.
  - destruct (runHttpTest_wrote cfg (fst (fetch_of net i)) (snd (fetch_of net i)) w)
      as (row & W & K & N & St).
    destruct (runHttpTest cfg (fst (fetch_of net i)) (snd (fetch_of net i)) w)
      as [res w1] eqn:E0.
    cbn [fst snd] in *.
    assert (Estep : run_http_tests (cfg :: rest) i net results w
                    = run_http_tests rest (S i) net
                        (results ++ [{| type := Http; result := res |}])%list w1)
      by (cbn [run_http_tests]; unfold bind; now rewrite E0).
    rewrite Estep.
    destruct (IH (S i) (results ++ [{| type := Http; result := res |}])%list w1)
      as (rows & W' & K' & R').
    exists (row :: rows). split; [|split].
    + exact (wrote_app [row] rows w w1 _ W W').
    + cbn [map]. now rewrite K, K'.
    + rewrite R', map_app, <- app_assoc. cbn [map app].
      rewrite (row_key_outcome row Http cfg K).
      unfold result_outcome at 2. cbn [type result]. now rewrite N, St.
Qed.

Lemma run_tcp_tests_wrote net tcpTests :
  forall i results w,
  exists rows,
    wrote rows w (snd (run_tcp_tests tcpTests i net results w))
    /\ map row_key rows = map (test_key Tcp) (accepted_prefix tcpTests)
    /\ match first_refused tcpTests with
       | None =>
           exists all,
             fst (run_tcp_tests tcpTests i net results w) = Completed all
             /\ map result_outcome all
                = (map result_outcome results ++ map row_outcome rows)%list
       | Some c => fst (run_tcp_tests tcpTests i net results w) = Threw c
       end.
Proof.
  induction tcpTests as [|cfg rest IH]; intros i results w.
  - exists []. simpl. split; [apply wrote_nil|]. split; [reflexivity|].
    exists results. now rewrite app_nil_r.
  - cbn [run_tcp_tests accepted_prefix first_refused find].
    destruct (connect_throws (target cfg)) eqn:Thr.
    + exists []. simpl. split; [apply wrote_nil|]. split; reflexivity.
    + destruct (runTcpTest_wrote cfg (fst (connect_of net i)) (snd (connect_of net i)) w)
        as (row & W & K & N & St).
      unfold bind.
      destruct (runTcpTest cfg (fst (connect_of net i)) (snd (connect_of net i)) w)
        as [res w1] eqn:E0.
      cbn [fst snd] in *.
      destruct (IH (S i) (results ++ [{| type := Tcp; result := res |}])%list w1)
        as (rows & W' & K' & R').
      exists (row :: rows). split; [|split].
      * exact (wrote_app [row] rows w w1 _ W W').
      * cbn [map]. now rewrite K, K'.
      * fold (first_refused rest).
        destruct (first_refused rest) as [c|]; [exact R'|].
        destruct R' as (all & Ea & Ra). exists all. split; [exact Ea|].
        rewrite Ra, map_app, <- app_assoc. cbn [map app].
        rewrite (row_key_outcome row Tcp cfg K).
        unfold result_outcome at 2. cbn [type result]. now rewrite N, St.
Qed.

Lemma accepted_prefix_all l : first_refused l = None -> accepted_prefix l = l.
Proof.
  induction l as [|c rest IH]; [reflexivity|].
  cbn [first_refused find accepted_prefix].
  destruct (connect_throws (target c)); [discriminate|].
  intros H. now rewrite (IH H).
Qed.

(** A cycle probes the HTTP tests, then the TCP tests up to the first one
    whose port [socket.connect] refuses (no port, not a number, above
    65535).  It writes exactly one row per test probed, in that order,
    each with the test's name and target, sends one message for each row
    that is failed or flagged as a recovery, and leaves the system table
    and the CPU baseline alone.  When no port is refused every configured
    test is probed and the result list reports the same names and outcomes
    in the same order; otherwise the cycle ends there with the error, and
    the later TCP tests are not probed. *)
Theorem runAllTests_one_row_per_test
        (env : string -> option string) (net : network) (w : world) :
  let http := configured_tests (env "HTTP_ENDPOINTS") default_http_tests in
  let tcp := configured_tests (env "TCP_HOSTS") default_tcp_tests in
  exists rows,
    wrote rows w (snd (runAllTests env net w))
    /\ map row_key rows
       = (map (test_key Http) http
          ++ map (test_key Tcp) (accepted_prefix tcp))%list
    /\ match first_refused tcp with
       | None =>
           accepted_prefix tcp = tcp
           /\ exists results,
               fst (runAllTests env net w) = Completed results
               /\ map result_outcome results = map row_outcome rows
       | Some c =>
           fst (runAllTests env net w) = Threw c
           /\ connect_throws (target c) = true
           /\ exists rest, tcp = (accepted_prefix tcp ++ c :: rest)%list
       end.
Proof.
  intros http tcp.
  destruct (run_http_tests_wrote net http 0%nat [] w) as (rows1 & W1 & K1 & R1).
  destruct (run_http_tests http 0 net [] w) as [results1 w1] eqn:E0.
  cbn [fst snd] in *.
  assert (Estep : runAllTests env net w = run_tcp_tests tcp 0 net results1 w1)
    by (unfold runAllTests, bind; fold http tcp; now rewrite E0).
  rewrite Estep.
  destruct (run_tcp_tests_wrote net tcp 0%nat results1 w1) as (rows2 & W2 & K2 & R2).
  exists (rows1 ++ rows2)%list. split; [|split].
  - exact (wrote_app rows1 rows2 w w1 _ W1 W2).
  - now rewrite map_app, K1, K2.
  - destruct (first_refused tcp) as [c|] eqn:F.
    + split; [exact R2|]. unfold first_refused in F.
      split; [exact (proj2 (find_some _ _ F))|].
      clear - F. induction tcp as [|d l IH]; [discriminate|].
      cbn [find accepted_prefix] in *.
      destruct (connect_throws (target d)).
      * injection F as <-. now exists l.
      * destruct (IH F) as (rest & E). exists rest. cbn [app]. now rewrite <- E.
    + split; [now apply accepted_prefix_all|].
      destruct R2 as (all & Ea & Ra). exists all. split; [exact Ea|].
      now rewrite Ra, R1, map_app.
Qed.

Lemma parseTestConfig_map s :
  parseTestConfig s = map parse_entry (NameSpec.kept_items s).
Proof.
  unfold parseTestConfig, NameSpec.kept_items. rewrite push_loop. simpl.
  f_equal. apply filter_ext. intros e. apply truthy_eqb.
Qed.

Lemma configured_tests_nil v d :
  d <> [] ->
  configured_tests v d = [] <->
  exists s, v = Some s /\ truthy s = true /\ NameSpec.kept_items s = [].
Proof.
  intros Hd. unfold configured_tests. split.
  - destruct v as [s|]; [|contradiction].
    destruct (truthy s) eqn:T; [|contradiction].
    rewrite parseTestConfig_map. intros E. apply map_eq_nil in E.
    now exists s.
  - intros (s & -> & T & K). now rewrite T, parseTestConfig_map, K.
Qed.

(** The built-in targets are probed when a variable is unset or empty.  A
    variable that is set but holds no item (only commas and blanks) gives no
    test at all: when both are so, a cycle writes nothing, sends nothing and
    returns no result. *)
Theorem runAllTests_defaults_and_blank_lists
        (env : string -> option string) (net : network) (w : world) :
  (env "HTTP_ENDPOINTS" = None \/ env "HTTP_ENDPOINTS" = Some "" ->
   configured_tests (env "HTTP_ENDPOINTS") default_http_tests = default_http_tests)
  /\ (env "TCP_HOSTS" = None \/ env "TCP_HOSTS" = Some "" ->
      configured_tests (env "TCP_HOSTS") default_tcp_tests = default_tcp_tests)
  /\ (forall h t,
        env "HTTP_ENDPOINTS" = Some h -> truthy h = true ->
        NameSpec.kept_items h = [] ->
        env "TCP_HOSTS" = Some t -> truthy t = true ->
        NameSpec.kept_items t = [] ->
        runAllTests env net w = (Completed [], w)).
Proof.
  split; [|split].
  - intros [E | E]; rewrite E; reflexivity.
  - intros [E | E]; rewrite E; reflexivity.
  - intros h t Eh Th Kh Et Tt Kt. unfold runAllTests.
    rewrite Eh, Et. unfold configured_tests.
    rewrite Th, Tt, !parseTestConfig_map, Kh, Kt. reflexivity.
Qed.

End TestCycles.

Section TestCycleExamples.
Import Tests Cycle CycleSpec MoreSamples.

(** With [TCP_HOSTS=localhost,db.internal:5432] the cycle probes the two
    built-in HTTP endpoints, then ends with the error of the first TCP
    target: the database is not probed. *)
Example runAllTests_stops_at_a_target_without_port :
  fst (runAllTests env_portless net_up empty_world)
  = Threw {| name := "localhost"; target := "localhost" |}
  /\ map TestRow.target (rev (tests (snd (runAllTests env_portless net_up empty_world))))
     = ["https://httpbin.org/status/200"; "https://api.github.com"]
  /\ connect_throws "db.internal:5432" = false
  /\ connect_throws "db.internal:70000" = true
  /\ connect_throws "db.internal:" = true.
Proof. vm_compute. repeat split. Qed.

End TestCycleExamples.

(** ** Recipients and the startup message *)

Section Recipients.
Import JsString JsNumber NameSpec Tests Cycle.

Lemma push_if_loop {A B} (keep : A -> bool) (f : A -> B) (l : list A) (acc : list B) :
  fold_left (fun out x => if keep x then (out ++ [f x])%list else out) l acc
  = (acc ++ map f (filter keep l))%list.
Proof.
  revert acc. induction l as [|x l IH]; intros acc; simpl.
  - now rewrite app_nil_r.
  - rewrite IH. destruct (keep x); simpl; [now rewrite <- app_assoc | reflexivity].
Qed.

Lemma kept_items_filter ids :
  kept_items ids = filter truthy (map trim (split "," ids)).
Proof. unfold kept_items. apply filter_ext. intros e. now rewrite truthy_eqb. Qed.

(** [sendToAllUsers] rejects when TELEGRAM_CHAT_IDS is unset.  Otherwise it
    tries one delivery for every item of the list that is not blank, trimmed
    and in order, whether or not earlier deliveries failed; before
    [initTelegram] every one of them fails. *)
Theorem sendToAllUsers_attempts
        (text : Type) (bot : option (string -> text -> bool)) (message : text) :
  Telegram.sendToAllUsers text None bot message = None
  /\ forall ids, exists attempts,
       Telegram.sendToAllUsers text (Some ids) bot message = Some attempts
       /\ map (Telegram.chat text) attempts = kept_items ids
       /\ (forall a, In a attempts ->
             Telegram.body text a = message
             /\ Telegram.delivered text a
                = match bot with
                  | Some send => send (Telegram.chat text a) message
                  | None => false
                  end).
Proof.
  split; [reflexivity|]. intros ids.
  exists (map (fun c => Telegram.sendMessage text bot c message) (kept_items ids)).
  split; [|split].
  - unfold Telegram.sendToAllUsers. rewrite push_if_loop, kept_items_filter.
    reflexivity.
  - rewrite map_map. cbn. apply map_id.
  - intros a Ha. apply in_map_iff in Ha as (c & <- & _). split; reflexivity.
Qed.

Lemma filter_length_le {A} (f : A -> bool) (l : list A) :
  (List.length (filter f l) <= List.length l)%nat.
Proof. induction l as [|x l IH]; simpl; [lia|]. destruct (f x); simpl; lia. Qed.

Lemma filter_length_all {A} (f : A -> bool) (l : list A) :
  List.length (filter f l) = List.length l -> forall x, In x l -> f x = true.
Proof.
  induction l as [|y l IH]; simpl; [contradiction|].
  intros H x [<- | Hx].
  - destruct (f y) eqn:E; [reflexivity|].
    pose proof (filter_length_le f l). lia.
  - destruct (f y) eqn:E; simpl in H.
    + apply IH; [lia | exact Hx].
    + pose proof (filter_length_le f l). lia.
Qed.

Lemma length_app_three a b : (String.length (a ++ b) = String.length a + String.length b)%nat.
Proof. induction a as [|c a IH]; simpl; [reflexivity | now rewrite IH]. Qed.

Lemma substring_length n s :
  (n <= String.length s)%nat -> String.length (substring 0 n s) = n.
Proof.
  revert s. induction n as [|n IH]; intros s H.
  - destruct s; reflexivity.
  - destruct s as [|c s]; simpl in *; [lia|]. rewrite IH; [reflexivity | lia].
Qed.

(** The startup message.  Its user count is the number of comma-separated
    items, blank ones included, so it is at least the number of chats that
    [sendToAllUsers] reaches, and more as soon as one item is blank.  It says
    "Using defaults" exactly when both target variables are set and hold no
    item, and then a cycle probes nothing.  A target is shown whole up to 60
    units and otherwise cut to 63. *)
Theorem startupMessage_users_and_defaults
        (env : string -> option string) (ids : string) :
  env "TELEGRAM_CHAT_IDS" = Some ids ->
  (List.length (kept_items ids) <= Index.users (Index.startupMessage env))%nat
  /\ (List.length (kept_items ids) = Index.users (Index.startupMessage env)
      -> forall item, In item (split "," ids) -> trim item <> "")
  /\ (Index.listed (Index.startupMessage env) = Index.UsingDefaults
      <-> (exists h, env "HTTP_ENDPOINTS" = Some h /\ truthy h = true
                     /\ kept_items h = [])
          /\ (exists t, env "TCP_HOSTS" = Some t /\ truthy t = true
                        /\ kept_items t = []))
  /\ (forall net w,
        Index.listed (Index.startupMessage env) = Index.UsingDefaults ->
        runAllTests env net w = (Completed [], w))
  /\ (forall target,
        (String.length (Index.displayTarget target) <= 63)%nat
        /\ ((String.length target <= 60)%nat -> Index.displayTarget target = target)).
Proof.
  intros E.
  assert (U : Index.users (Index.startupMessage env) = List.length (split "," ids))
    by (unfold Index.startupMessage; cbn; now rewrite E).
  assert (D : Index.listed (Index.startupMessage env) = Index.UsingDefaults
              <-> configured_tests (env "HTTP_ENDPOINTS") default_http_tests = []
                  /\ configured_tests (env "TCP_HOSTS") default_tcp_tests = []).
  { unfold Index.startupMessage. cbn [Index.listed].
    destruct (configured_tests (env "HTTP_ENDPOINTS") default_http_tests) as [|a l];
      destruct (configured_tests (env "TCP_HOSTS") default_tcp_tests) as [|b l'];
      cbn; split; intros H; try discriminate; try (destruct H; discriminate);
      auto. }
  assert (N1 : default_http_tests <> []) by discriminate.
  assert (N2 : default_tcp_tests <> []) by discriminate.
  split; [|split; [|split; [|split]]].
  - rewrite U, kept_items_filter, <- (length_map trim (split "," ids)).
    apply filter_length_le.
  - rewrite U, kept_items_filter, <- (length_map trim (split "," ids)).
    intros H item Hin Hblank.
    assert (T : truthy (trim item) = true).
    { apply (filter_length_all truthy _ H). now apply in_map. }
    rewrite Hblank in T. discriminate.
  - rewrite D, (configured_tests_nil _ _ N1), (configured_tests_nil _ _ N2).
    reflexivity.
  - intros net w H. apply D in H as [H1 H2].
    apply (configured_tests_nil _ _ N1) in H1 as (h & Eh & Th & Kh).
    apply (configured_tests_nil _ _ N2) in H2 as (t & Et & Tt & Kt).
    unfold runAllTests. rewrite Eh, Et. unfold configured_tests.
    rewrite Th, Tt, !parseTestConfig_map, Kh, Kt. reflexivity.
  - intros target. unfold Index.displayTarget. split.
    + destruct (Nat.ltb_spec 60 (String.length target)).
      * rewrite length_app_three, substring_length by lia. simpl. lia.
      * lia.
    + intros H. destruct (Nat.ltb_spec 60 (String.length target)); [lia | reflexivity].
Qed.

End Recipients.

(** ** The scheduler *)

Section SchedulerFacts.
Import JsString JsNumber Scheduler SchedulerSpec.

Lemma stop_at_idem i l : stop_at i (stop_at i l) = stop_at i l.
Proof.
  revert i. induction l as [|t l IH]; intros [|i]; simpl; try reflexivity.
  now rewrite IH.
Qed.

Lemma stop_at_comm i j l : stop_at i (stop_at j l) = stop_at j (stop_at i l).
Proof.
  revert i j. induction l as [|t l IH]; intros [|i] [|j]; simpl; try reflexivity.
  now rewrite IH.
Qed.

Lemma stop_handle_idem h l : stop_handle h (stop_handle h l) = stop_handle h l.
Proof. destruct h; simpl; [apply stop_at_idem | reflexivity]. Qed.

Lemma stop_handle_comm h k l :
  stop_handle h (stop_handle k l) = stop_handle k (stop_handle h l).
Proof. destruct h, k; simpl; try reflexivity. apply stop_at_comm. Qed.

Lemma stop_at_nth i j l t :
  nth_error l j = Some t ->
  exists t', nth_error (stop_at i l) j = Some t'
             /\ (running t = false \/ i = j -> running t' = false).
Proof.
  revert i j. induction l as [|a l IH]; intros i j; [destruct j; discriminate|].
  destruct i as [|i], j as [|j]; simpl.
  - intros E. eexists. split; reflexivity.
  - intros E. exists t. split; [exact E|]. intros [R | R]; [exact R | discriminate].
  - intros E. injection E as <-. exists a. split; [reflexivity|].
    intros [R | R]; [exact R | discriminate].
  - intros E. destruct (IH i j E) as (t' & E' & R'). exists t'. split; [exact E'|].
    intros [R | R]; apply R'; [now left | right; congruence].
Qed.

Lemma stop_handle_nth h j l t :
  nth_error l j = Some t ->
  exists t', nth_error (stop_handle h l) j = Some t'
             /\ (running t = false \/ h = Some j -> running t' = false).
Proof.
  destruct h as [i|]; simpl.
  - intros E. destruct (stop_at_nth i j l t E) as (t' & E' & R'). exists t'.
    split; [exact E'|]. intros [R | R]; apply R'; [now left | right; congruence].
  - intros E. exists t. split; [exact E|]. intros [R | R]; [exact R | discriminate].
Qed.

Lemma stop_at_length i l : List.length (stop_at i l) = List.length l.
Proof.
  revert i. induction l as [|a l IH]; intros [|i]; simpl; try reflexivity.
  now rewrite IH.
Qed.

(** [stopMonitoring] stops the task behind each of the three variables
    that is set, changes nothing else, and can be called again without
    effect. *)
Theorem stopMonitoring_idempotent (s : state) :
  stopMonitoring (stopMonitoring s) = stopMonitoring s
  /\ pending (stopMonitoring s) = pending s
  /\ calls (stopMonitoring s) = calls s
  /\ List.length (cron (stopMonitoring s)) = List.length (cron s)
  /\ (forall i t,
        (testInterval s = Some i \/ systemMonitorInterval s = Some i
         \/ dailyReportTask s = Some i) ->
        nth_error (cron s) i = Some t ->
        exists t', nth_error (cron (stopMonitoring s)) i = Some t'
                   /\ running t' = false).
Proof.
  split; [|split; [|split; [|split]]]; try reflexivity.
  - unfold stopMonitoring. cbn [cron testInterval dailyReportTask systemMonitorInterval
                                pending calls].
    f_equal.
    set (d := dailyReportTask s). set (m := systemMonitorInterval s).
    set (t := testInterval s). set (c := cron s).
    rewrite (stop_handle_comm t d), (stop_handle_comm t m), stop_handle_idem.
    rewrite (stop_handle_comm m d), stop_handle_idem.
    now rewrite stop_handle_idem.
  - unfold stopMonitoring. cbn [cron].
    destruct (dailyReportTask s), (systemMonitorInterval s), (testInterval s);
      simpl; now rewrite ?stop_at_length.
  - intros i t H E. unfold stopMonitoring. cbn [cron].
    destruct (stop_handle_nth (testInterval s) i _ t E) as (t1 & E1 & R1).
    destruct (stop_handle_nth (systemMonitorInterval s) i _ t1 E1) as (t2 & E2 & R2).
    destruct (stop_handle_nth (dailyReportTask s) i _ t2 E2) as (t3 & E3 & R3).
    exists t3. split; [exact E3|].
    destruct H as [H | [H | H]].
    + apply R3. left. apply R2. left. apply R1. now right.
    + apply R3. left. apply R2. now right.
    + apply R3. now right.
Qed.

End SchedulerFacts.

Section SchedulerPhases.
Import JsString JsNumber Scheduler SchedulerSpec TextSpec.










End SchedulerPhases.

Section SchedulerExamples.
Import Scheduler SchedulerSpec MoreSamples.


End SchedulerExamples.

Section ReportHour.
Import JsString JsNumber Scheduler SchedulerSpec TextSpec.




End ReportHour.

(** ** [src/index.js] *)

Section MainModes.
Import JsString JsNumber NameSpec Index.

Lemma existsb_eqb_In x l : existsb (String.eqb x) l = true <-> In x l.
Proof.
  rewrite existsb_exists. split.
  - intros (y & Hy & E). apply String.eqb_eq in E. now subst.
  - intros H. exists x. split; [exact H | apply String.eqb_refl].
Qed.

Lemma env_truthy_Some v : env_truthy v = true -> exists s, v = Some s /\ truthy s = true.
Proof. destruct v as [s|]; simpl; [|discriminate]. intros H. now exists s. Qed.

Lemma first_split_map_trim sep s :
  first (map trim (split sep s)) = trim (before_first sep s).
Proof.
  rewrite <- first_split.
  destruct (split sep s) eqn:E; [now apply split_not_nil in E | reflexivity].
Qed.

(** What a run of [main] does, by its arguments and environment: it
    exits with 1 before anything else when the token or the chat ids are
    unset or empty; otherwise it initialises the bot and does exactly one
    of: send the status (whenever --status is given, also together with
    --report), send the report, or start monitoring, which never ends in an
    exit and never gets a zero interval. The startup message goes to the
    trimmed text before the first comma of the chat ids, and is skipped
    when that is empty, whatever the other ids. *)
Theorem main_modes (args : list string) (env : string -> option string) :
  let out := main args env in
  let configured :=
    env_truthy (env "TELEGRAM_BOT_TOKEN") && env_truthy (env "TELEGRAM_CHAT_IDS") in
  (configured = false -> out = [Exit 1])
  /\ (configured = true ->
      exists token ids,
        env "TELEGRAM_BOT_TOKEN" = Some token
        /\ env "TELEGRAM_CHAT_IDS" = Some ids
        /\ hd_error out = Some (InitTelegram token)
        /\ ~ In (Exit 1) out
        /\ (In "--status" args -> out = [InitTelegram token; SendStatusToAllUsers; Exit 0])
        /\ (~ In "--status" args -> In "--report" args ->
            out = [InitTelegram token; GenerateReport; Exit 0])
        /\ (~ In "--status" args -> ~ In "--report" args ->
            let k := parseInt_or (env "TEST_INTERVAL_MINUTES") 5 in
            let c := trim (before_first "," ids) in
            k <> 0
            /\ out = [InitTelegram token;
                      (if truthy c then SendStartupMessage c (startupMessage env)
                       else WarnNoChatId);
                      StartMonitoring k])).
Proof.
  cbv zeta. unfold main.
  destruct (env_truthy (env "TELEGRAM_BOT_TOKEN")) eqn:Tk; cbn [negb andb];
    [|split; [reflexivity | discriminate]].
  destruct (env_truthy (env "TELEGRAM_CHAT_IDS")) eqn:Ids; cbn [negb];
    [|split; [reflexivity | discriminate]].
  split; [discriminate|]. intros _.
  destruct (env_truthy_Some _ Tk) as (token & Et & _).
  destruct (env_truthy_Some _ Ids) as (ids & Ei & _).
  exists token, ids. rewrite Et, Ei.
  split; [reflexivity|]. split; [reflexivity|]. split; [reflexivity|].
  destruct (existsb (String.eqb "--status") args) eqn:St.
  - apply existsb_eqb_In in St. cbn [negb andb].
    split; [simpl; intuition discriminate|].
    split; [reflexivity|]. split; [tauto|]. tauto.
  - assert (NSt : ~ In "--status" args)
      by (intros H; apply existsb_eqb_In in H; congruence).
    destruct (existsb (String.eqb "--report") args) eqn:Rp.
    + apply existsb_eqb_In in Rp. cbn [negb andb].
      split; [simpl; intuition discriminate|].
      split; [tauto|]. split; [reflexivity|]. tauto.
    + assert (NRp : ~ In "--report" args)
        by (intros H; apply existsb_eqb_In in H; congruence).
      cbn [negb andb]. rewrite first_split_map_trim.
      split; [destruct (truthy (trim (before_first "," ids)));
              simpl; intuition discriminate|].
      split; [tauto|]. split; [tauto|]. intros _ _.
      split; [apply parseInt_or_nonzero; discriminate | reflexivity].
Qed.

End MainModes.

Section MainExamples.
Import JsString NameSpec Index MoreSamples.

Lemma startupMessage_users_and_defaults_witness :
  sample_env "TELEGRAM_CHAT_IDS" = Some "123456789, ,987654321"
  /\ (List.length (kept_items "123456789, ,987654321")
      <= users (startupMessage sample_env))%nat.
Proof.
  split; [reflexivity|].
  exact (proj1 (startupMessage_users_and_defaults
                  sample_env "123456789, ,987654321" eq_refl)).
Defined.

End MainExamples.

(** ** The shared CPU baseline *)

Section SharedBaseline.
Import JsNumber Eff System HealthSpec.
Variable th : thresholds.

Lemma getCpuUsage_baseline cpus w :
  snd (getCpuUsage cpus w) = with_baseline w (cpu_reading cpus).
Proof.
  destruct (previousCpuInfo w) as [p|] eqn:P.
  - now rewrite (getCpuUsage_next cpus w p P).
  - now rewrite (getCpuUsage_first cpus w P).
Qed.

(** [getSystemMetrics] reads no table, writes no row and sends nothing,
    but it moves the CPU baseline that [checkSystemHealth] uses: its CPU
    value is absent exactly when there was no baseline, and the health
    check that follows is never the initializing one and measures the CPU
    since the metrics call. *)
Theorem getSystemMetrics_moves_the_baseline
        (host next : host_reading) (id : host_identity) (w : world) :
  let m := fst (Metrics.getSystemMetrics host id w) in
  let w1 := snd (Metrics.getSystemMetrics host id w) in
  w1 = with_baseline w (cpu_reading (os_cpus host))
  /\ (Metrics.cpu m = None <-> previousCpuInfo w = None)
  /\ (forall z, Metrics.cpu m = Some z -> 0 <= z <= 100)
  /\ Metrics.ram m = getRamUsage (os_totalmem host) (os_freemem host)
  /\ exists status ram disk warnings,
       fst (checkSystemHealth th next w1)
       = Checked status
           (cpu_percentage (cpu_reading (os_cpus host)) (cpu_reading (os_cpus next)))
           ram disk warnings.
Proof.
  cbv zeta.
  assert (E : Metrics.getSystemMetrics host id w
              = ({| Metrics.cpu := fst (getCpuUsage (os_cpus host) w);
                    Metrics.ram := getRamUsage (os_totalmem host) (os_freemem host);
                    Metrics.hostname := os_hostname id;
                    Metrics.platform := os_platform id;
                    Metrics.uptime := os_uptime id |},
                 snd (getCpuUsage (os_cpus host) w))).
  { unfold Metrics.getSystemMetrics, bind, ret.
    now destruct (getCpuUsage (os_cpus host) w). }
  rewrite E. cbn [fst snd Metrics.cpu Metrics.ram]. rewrite getCpuUsage_baseline.
  split; [reflexivity|]. split; [|split; [|split; [reflexivity|]]].
  - destruct (previousCpuInfo w) as [p|] eqn:P.
    + rewrite (getCpuUsage_next _ w p P). simpl. split; discriminate.
    + rewrite (getCpuUsage_first _ w P). simpl. split; reflexivity.
  - intros z. destruct (previousCpuInfo w) as [p|] eqn:P.
    + rewrite (getCpuUsage_next _ w p P). simpl. intros Ez. injection Ez as <-.
      apply cpu_percentage_bounds.
    + rewrite (getCpuUsage_first _ w P). discriminate.
  - rewrite (checkSystemHealth_checked th next
               (with_baseline w (cpu_reading (os_cpus host))) _ eq_refl).
    cbn [fst]. do 4 eexists. reflexivity.
Qed.

(** After a restart there is no baseline but the tables are still there:
    the first check writes nothing and sends nothing, and the second one
    compares its severity with the one stored before the restart. So a
    severity that was already stored raises no alert again, and a healthy
    sample after a stored warning or critical one sends the recovery
    message. *)
Theorem health_checks_after_restart (h1 h2 : host_reading) (w : world) :
  previousCpuInfo w = None ->
  let r1 := checkSystemHealth th h1 w in
  let r2 := checkSystemHealth th h2 (snd r1) in
  let cpu := cpu_percentage (cpu_reading (os_cpus h1)) (cpu_reading (os_cpus h2)) in
  let ram := getRamUsage (os_totalmem h2) (os_freemem h2) in
  let disk := getDiskUsage (df_root h2) in
  let status := fst (classify th cpu ram disk) in
  let last := last_system_status (system_metrics w) in
  fst r1 = Initializing
  /\ snd r1 = with_baseline w (cpu_reading (os_cpus h1))
  /\ status_of (fst r2) = Some status
  /\ List.length (system_metrics (snd r2)) = S (List.length (system_metrics w))
  /\ tests (snd r2) = tests w
  /\ sent (log (snd r2))
     = (sent (log w)
        ++ alert_messages last status cpu ram disk (snd (classify th cpu ram disk))
        ++ recovery_messages last status cpu ram disk)%list
  /\ (last = Some status -> sent (log (snd r2)) = sent (log w))
  /\ (last = None -> status = Healthy -> sent (log (snd r2)) = sent (log w)).
Proof.
  intros P. cbv zeta. rewrite (checkSystemHealth_first th h1 w P). cbn [fst snd].
  split; [reflexivity|]. split; [reflexivity|].
  set (w1 := with_baseline w (cpu_reading (os_cpus h1))).
  pose proof (checkSystemHealth_after th h2 w1 _ eq_refl) as (A1 & _ & _).
  pose proof (checkSystemHealth_sent th h2 w1 _ eq_refl) as S1.
  cbv zeta in A1, S1.
  change (log w1) with (log w) in S1.
  change (system_metrics w1) with (system_metrics w) in S1.
  assert (R : List.length (system_metrics (snd (checkSystemHealth th h2 w1)))
              = S (List.length (system_metrics w))
              /\ tests (snd (checkSystemHealth th h2 w1)) = tests w)
    by (rewrite (checkSystemHealth_checked th h2 w1 _ eq_refl); split; reflexivity).
  destruct R as (R1 & R2).
  split; [exact A1|]. split; [exact R1|]. split; [exact R2|].
  split; [exact S1|]. split.
  - intros L. rewrite S1, L. unfold alert_messages, recovery_messages, statusChanged.
    destruct (fst (classify th _ _ _)); simpl; now rewrite app_nil_r.
  - intros L H. rewrite S1, L, H. simpl. now rewrite app_nil_r.
Qed.

End SharedBaseline.

Section SharedBaselineExamples.
Import JsNumber Eff System HealthSpec Sample MoreSamples.

Lemma health_checks_after_restart_witness :
  previousCpuInfo restarted = None
  /\ sent (log (snd (checkSystemHealth default_thresholds host_ram90_third
                       (snd (checkSystemHealth default_thresholds host_ram90_again
                               restarted)))))
     = [].
Proof.
  split; [reflexivity|].
  destruct (health_checks_after_restart default_thresholds
              host_ram90_again host_ram90_third restarted eq_refl)
    as (_ & _ & _ & _ & _ & _ & H & _).
  exact (H eq_refl).
Defined.

End SharedBaselineExamples.

(** ** Probes and health checks use different parts of the store *)

Section Independence.
Import JsString JsNumber Eff Tests Cycle System HealthSpec CycleSpec.
Variable th : thresholds.

Ltac run_probe'' :=
  unfold bind, getLastTestResult, insertTestResult, sendToAllUsers, when, ret, emit;
  cbn [fst snd tests system_metrics previousCpuInfo log].

Lemma runHttpTest_local cfg fetched ms w w' :
  tests w = tests w' ->
  fst (runHttpTest cfg fetched ms w) = fst (runHttpTest cfg fetched ms w')
  /\ tests (snd (runHttpTest cfg fetched ms w))
     = tests (snd (runHttpTest cfg fetched ms w')).
Proof.
  intros E. unfold runHttpTest. destruct fetched as [code | error].
  - run_probe''. rewrite E. destruct (code <? 400);
      destruct (last_failed (last_test_status (tests w') (target cfg) Http));
      cbn [is_failed orb]; run_probe''; split; reflexivity.
  - run_probe''. rewrite E. split; reflexivity.
Qed.

Lemma runTcpTest_local cfg connected ms w w' :
  tests w = tests w' ->
  fst (runTcpTest cfg connected ms w) = fst (runTcpTest cfg connected ms w')
  /\ tests (snd (runTcpTest cfg connected ms w))
     = tests (snd (runTcpTest cfg connected ms w')).
Proof.
  intros E. unfold runTcpTest. destruct connected as [ | | error];
    run_probe''; rewrite E;
    try destruct (last_failed (last_test_status (tests w') (target cfg) Tcp));
    run_probe''; split; reflexivity.
Qed.

Lemma run_http_tests_local net httpTests :
  forall i results w w',
  tests w = tests w' ->
  fst (run_http_tests httpTests i net results w)
  = fst (run_http_tests httpTests i net results w')
  /\ tests (snd (run_http_tests httpTests i net results w))
     = tests (snd (run_http_tests httpTests i net results w')).
Proof.
  induction httpTests as [|cfg rest IH]; intros i results w w' E.
  - simpl. now split.
  - destruct (runHttpTest_local cfg (fst (fetch_of net i)) (snd (fetch_of net i)) w w' E)
      as (R & T).
    cbn [run_http_tests]. unfold bind.
    destruct (runHttpTest cfg (fst (fetch_of net i)) (snd (fetch_of net i)) w)
      as [res w1].
    destruct (runHttpTest cfg (fst (fetch_of net i)) (snd (fetch_of net i)) w')
      as [res' w1'].
    cbn [fst snd] in R, T. subst res'. now apply IH.
Qed.

Lemma run_tcp_tests_local net tcpTests :
  forall i results w w',
  tests w = tests w' ->
  fst (run_tcp_tests tcpTests i net results w)
  = fst (run_tcp_tests tcpTests i net results w')
  /\ tests (snd (run_tcp_tests tcpTests i net results w))
     = tests (snd (run_tcp_tests tcpTests i net results w')).
Proof.
  induction tcpTests as [|cfg rest IH]; intros i results w w' E.
  - simpl. now split.
  - cbn [run_tcp_tests].
    destruct (connect_throws (target cfg)); [simpl; now split|].
    destruct (runTcpTest_local cfg (fst (connect_of net i)) (snd (connect_of net i))
                w w' E) as (R & T).
    unfold bind.
    destruct (runTcpTest cfg (fst (connect_of net i)) (snd (connect_of net i)) w)
      as [res w1].
    destruct (runTcpTest cfg (fst (connect_of net i)) (snd (connect_of net i)) w')
      as [res' w1'].
    cbn [fst snd] in R, T. subst res'. now apply IH.
Qed.

Lemma runAllTests_local env net w w' :
  tests w = tests w' ->
  fst (runAllTests env net w) = fst (runAllTests env net w')
  /\ tests (snd (runAllTests env net w)) = tests (snd (runAllTests env net w')).
Proof.
  intros E. unfold runAllTests, bind.
  destruct (run_http_tests_local net
              (configured_tests (env "HTTP_ENDPOINTS") default_http_tests)
              0%nat [] w w' E) as (R & T).
  destruct (run_http_tests _ 0 net [] w) as [r1 w1].
  destruct (run_http_tests _ 0 net [] w') as [r1' w1'].
  cbn [fst snd] in R, T. subst r1'. now apply run_tcp_tests_local.
Qed.

Lemma checkSystemHealth_local host w w' :
  system_metrics w = system_metrics w' ->
  previousCpuInfo w = previousCpuInfo w' ->
  fst (checkSystemHealth th host w) = fst (checkSystemHealth th host w')
  /\ system_metrics (snd (checkSystemHealth th host w))
     = system_metrics (snd (checkSystemHealth th host w'))
  /\ previousCpuInfo (snd (checkSystemHealth th host w))
     = previousCpuInfo (snd (checkSystemHealth th host w'))
  /\ tests (snd (checkSystemHealth th host w)) = tests w
  /\ (List.length (sent (log (snd (checkSystemHealth th host w))))
      - List.length (sent (log w))
      = List.length (sent (log (snd (checkSystemHealth th host w'))))
        - List.length (sent (log w')))%nat.
Proof.
  intros Em Ep. destruct (previousCpuInfo w) as [p|] eqn:P.
  - pose proof (checkSystemHealth_sent th host w p P) as S1.
    pose proof (checkSystemHealth_sent th host w' p (eq_sym Ep)) as S2.
    cbv zeta in S1, S2. rewrite S1, S2, !length_app, Em.
    rewrite (checkSystemHealth_checked th host w p P).
    rewrite (checkSystemHealth_checked th host w' p (eq_sym Ep)).
    cbv zeta. cbn [fst snd system_metrics previousCpuInfo tests]. rewrite Em.
    repeat split. lia.
  - rewrite (checkSystemHealth_first th host w P).
    rewrite (checkSystemHealth_first th host w' (eq_sym Ep)).
    cbn [fst snd with_baseline system_metrics previousCpuInfo tests log].
    repeat split; [exact Em | lia].
Qed.

Lemma checkSystemHealth_sends_more host w :
  (List.length (sent (log w))
   <= List.length (sent (log (snd (checkSystemHealth th host w)))))%nat.
Proof.
  destruct (previousCpuInfo w) as [p|] eqn:P.
  - pose proof (checkSystemHealth_sent th host w p P) as S1. cbv zeta in S1.
    rewrite S1, length_app. lia.
  - rewrite (checkSystemHealth_first th host w P). cbn [snd with_baseline log]. lia.
Qed.

Lemma runAllTests_one_row_frame env net w :
  exists rows, wrote rows w (snd (runAllTests env net w)).
Proof.
  set (http := configured_tests (env "HTTP_ENDPOINTS") default_http_tests).
  set (tcp := configured_tests (env "TCP_HOSTS") default_tcp_tests).
  destruct (run_http_tests_wrote net http 0%nat [] w) as (rows1 & W1 & _).
  destruct (run_http_tests http 0 net [] w) as [results1 w1] eqn:E0.
  cbn [fst snd] in *.
  assert (Estep : runAllTests env net w = run_tcp_tests tcp 0 net results1 w1)
    by (unfold runAllTests, bind; fold http tcp; now rewrite E0).
  rewrite Estep.
  destruct (run_tcp_tests_wrote net tcp 0%nat results1 w1) as (rows2 & W2 & _).
  exists (rows1 ++ rows2)%list. exact (wrote_app rows1 rows2 w w1 _ W1 W2).
Qed.

Lemma wrote_rows_unique rows rows' w w1 w1' :
  wrote rows w w1 -> tests w1' = tests w1 ->
  forall w0, tests w0 = tests w -> wrote rows' w0 w1' -> rows' = rows.
Proof.
  intros (T1 & _) E w0 E0 (T2 & _). rewrite E, T1, E0 in T2.
  apply app_inv_tail in T2. apply (f_equal (@rev _)) in T2.
  now rewrite !rev_involutive in T2.
Qed.

(** A test cycle uses only the test table and a health check only the
    system table and the CPU baseline, so the two can run in either order:
    the results returned, the rows stored, the baseline and the number of
    messages sent are the same. *)
Theorem tests_and_health_check_commute
        (env : string -> option string) (net : network)
        (host : host_reading) (w : world) :
  let a := runAllTests env net w in
  let a' := checkSystemHealth th host (snd a) in
  let b := checkSystemHealth th host w in
  let b' := runAllTests env net (snd b) in
  fst a = fst b' /\ fst a' = fst b
  /\ tests (snd a') = tests (snd b')
  /\ system_metrics (snd a') = system_metrics (snd b')
  /\ previousCpuInfo (snd a') = previousCpuInfo (snd b')
  /\ List.length (sent (log (snd a'))) = List.length (sent (log (snd b'))).
Proof.
  cbv zeta.
  set (a := runAllTests env net w). set (b := checkSystemHealth th host w).
  destruct (runAllTests_one_row_frame env net w) as (rows & W).
  destruct (runAllTests_one_row_frame env net (snd b)) as (rows' & W').
  fold a in W.
  pose proof W as (Wt & Ws & Wm & Wp).
  pose proof W' as (Wt' & Ws' & Wm' & Wp').
  destruct (checkSystemHealth_local host (snd a) w Wm Wp) as (C1 & C2 & C3 & C4 & C5).
  fold b in C1, C2, C3, C5.
  assert (Tb : tests (snd b) = tests w)
    by (destruct (checkSystemHealth_local host w w eq_refl eq_refl)
         as (_ & _ & _ & H & _); exact H).
  destruct (runAllTests_local env net (snd b) w Tb) as (L1 & L2). fold a in L1, L2.
  assert (Er : rows' = rows)
    by (exact (wrote_rows_unique rows rows' w (snd a) _ W L2 (snd b) Tb W')).
  subst rows'.
  split; [now rewrite L1|]. split; [exact C1|].
  split; [now rewrite C4, L2|]. split; [now rewrite C2, Wm'|].
  split; [now rewrite C3, Wp'|].
  assert (G1 : (List.length (sent (log (snd a))) <=
                List.length (sent (log (snd (checkSystemHealth th host (snd a))))))%nat)
    by apply checkSystemHealth_sends_more.
  assert (G2 : (List.length (sent (log w)) <= List.length (sent (log (snd b))))%nat)
    by apply checkSystemHealth_sends_more.
  lia.
Qed.

End Independence.

(** ** Entries of other shapes *)

Section ParseEntryShapes.
Import JsString NameSpec Tests.

Lemma derived_name_nonempty t : t <> "" -> derived_name t <> "".
Proof.
  intros H. unfold derived_name.
  destruct (after_last "/" t); [|discriminate].
  destruct (before_first ":" t); [exact H | discriminate].
Qed.

(** An entry with two or more bars is not a named one: its target is the
    trimmed text before the first bar, its name is derived from that
    target, and the rest of the entry is dropped.  An entry without a bar
    that is not blank always gets a non-empty name. *)
Theorem parse_entry_with_more_bars (a rest : string) :
  mem "|" a = false -> mem "|" rest = true ->
  parse_entry (a ++ "|" ++ rest)
  = {| name := derived_name (trim a); target := trim a |}
  /\ (forall e, mem "|" e = false -> trim e <> "" ->
        target (parse_entry e) = trim e /\ name (parse_entry e) <> "").
Proof.
  intros Ha Hr. split.
  - unfold parse_entry.
    change (a ++ "|" ++ rest) with (a ++ String "|" rest).
    rewrite (split_app_sep "|" a rest Ha).
    destruct (split_sep_two "|" rest Hr) as (p & q & ps & E). rewrite E.
    cbn [map first hd]. now rewrite derived_name_code.
  - intros e He Ht. unfold parse_entry. rewrite (split_no_sep "|" e He).
    cbn [map first hd target name]. rewrite derived_name_code.
    split; [reflexivity | now apply derived_name_nonempty].
Qed.

End ParseEntryShapes.

Section ParseEntryExamples.
Import JsString NameSpec Tests.

Lemma parse_entry_with_more_bars_witness :
  parse_entry "https://example.com/health |Billing|eu"
  = {| name := "health"; target := "https://example.com/health" |}.
Proof.
  exact (proj1 (parse_entry_with_more_bars "https://example.com/health " "Billing|eu"
                  eq_refl eq_refl)).
Defined.

End ParseEntryExamples.
